(** * SHARK-Turbine, [sd_inference/unet.py]: the UNet wrapper and its export driver

    A shallow embedding of [turbine_models/custom_models/sd_inference/unet.py].

    - Tensors are a shape (list of dimension sizes) together with the
      row-major list of their elements; the element type and its three
      arithmetic operations are an interface ([ElemOps]), since the
      properties below do not depend on floating-point arithmetic.
    - Python exceptions are the [Raise] case of [result]; code with side
      effects lives in a state-and-exception monad [M S] whose state
      survives a raise, as the Python process state does.
    - The collaborators the script imports (graph capture, upload, backend
      compilation, file naming, model loading) are an interface
      ([Collaborators]); every call to one of them that can fail is logged,
      with its outcome, as an [Event]. *)

From Stdlib Require Import ZArith Ascii String Lia.
From stdpp Require Import base option list gmap strings.

Open Scope string_scope.
Open Scope list_scope.
Open Scope nat_scope.

(** ** Exceptions and the effect monad *)

Inductive exn : Type :=
  | TypeError
  | ValueError
  | RuntimeError
  | UnboundLocalError
  | External (who : string).

Inductive result (A : Type) : Type :=
  | Ok (a : A)
  | Raise (e : exn).
Arguments Ok {A} a.
Arguments Raise {A} e.

(** A computation over a state [S] that returns or raises; the state
    reached before a raise is kept. *)
Definition M (S A : Type) : Type := S -> S * result A.

Definition ret {S A} (a : A) : M S A := fun s => (s, Ok a).

Definition bind {S A B} (m : M S A) (k : A -> M S B) : M S B :=
  fun s =>
    match m s with
    | (s', Ok a) => k a s'
    | (s', Raise e) => (s', Raise e)
    end.

Definition lift {S A} (r : result A) : M S A := fun s => (s, r).

Notation "'let*' x ':=' e 'in' k" := (bind e (fun x => k))
  (at level 10, x pattern, e at level 100, k at level 200).
Notation "e ';;' k" := (bind e (fun _ => k))
  (at level 100, k at level 200, right associativity).

(** ** Tensors *)

Class ElemOps (E : Type) : Type := {
  eadd : E -> E -> E;
  esub : E -> E -> E;
  emul : E -> E -> E
}.

Record Tensor (E : Type) : Type := mkTensor {
  shape : list nat;
  data : list E
}.
Arguments mkTensor {E} shape data.
Arguments shape {E} t.
Arguments data {E} t.

(** Number of elements of a tensor of the given shape. *)
Definition numel (s : list nat) : nat := foldr Nat.mul 1 s.

Definition wf {E} (t : Tensor E) : Prop := length (data t) = numel (shape t).

Section TensorOps.
Context {E : Type}.

(** [torch.cat(tensors)] along dimension 0. *)
Definition torch_cat (tensors : list (Tensor E)) : result (Tensor E) :=
  match tensors with
  | [] => Raise RuntimeError
  | t0 :: _ =>
      match shape t0 with
      | [] => Raise RuntimeError
      | _ :: rest =>
          if forallb (fun t => match shape t with
                               | [] => false
                               | _ :: r => bool_decide (r = rest)
                               end) tensors
          then Ok (mkTensor
                     (sum_list (map (fun t => hd 0 (shape t)) tensors) :: rest)
                     (concat (map data tensors)))
          else Raise RuntimeError
      end
  end.

(** [t.chunk(chunks)] along dimension 0: pieces of
    [ceil(n / chunks)] rows, the last one possibly shorter; an empty
    dimension gives [chunks] empty pieces. *)
Definition torch_chunk (t : Tensor E) (chunks : nat) : result (list (Tensor E)) :=
  match shape t with
  | [] => Raise RuntimeError
  | n :: rest =>
      if chunks =? 0 then Raise RuntimeError
      else
        let split_size := (n + chunks - 1) / chunks in
        let row := numel rest in
        let piece i len :=
          mkTensor (len :: rest)
                   (take (len * row) (drop (i * split_size * row) (data t))) in
        if split_size =? 0
        then Ok (map (fun i => piece i 0) (seq 0 chunks))
        else
          let k := (n + split_size - 1) / split_size in
          Ok (map (fun i => piece i (min split_size (n - i * split_size)))
                  (seq 0 k))
  end.

(** Tuple unpacking [a, b = xs]. *)
Definition unpack2 {A} (xs : list A) : result (A * A) :=
  match xs with
  | [a; b] => Ok (a, b)
  | _ => Raise ValueError
  end.

(** Broadcasting of two shapes, aligned on the right. *)
Definition pad_shape (n : nat) (s : list nat) : list nat :=
  replicate (n - length s) 1 ++ s.

Fixpoint broadcast_dims (s1 s2 : list nat) : option (list nat) :=
  match s1, s2 with
  | [], [] => Some []
  | n1 :: r1, n2 :: r2 =>
      match broadcast_dims r1 r2 with
      | None => None
      | Some r =>
          if n1 =? n2 then Some (n1 :: r)
          else if n1 =? 1 then Some (n2 :: r)
          else if n2 =? 1 then Some (n1 :: r)
          else None
      end
  | _, _ => None
  end.

Definition broadcast_shapes (s1 s2 : list nat) : option (list nat) :=
  let n := max (length s1) (length s2) in
  broadcast_dims (pad_shape n s1) (pad_shape n s2).

(** The elements of a tensor of shape [from] once it is expanded to
    shape [to] (every dimension of [from] equals that of [to] or is 1). *)
Fixpoint expand (from to : list nat) (d : list E) : list E :=
  match from, to with
  | n :: r, m :: r' =>
      let k := numel r in
      if n =? m
      then concat (map (fun i => expand r r' (take k (drop (i * k) d))) (seq 0 n))
      else concat (replicate m (expand r r' d))
  | _, _ => d
  end.

(** An elementwise binary operator with broadcasting. *)
Definition elementwise (f : E -> E -> E) (a b : Tensor E) : result (Tensor E) :=
  match broadcast_shapes (shape a) (shape b) with
  | None => Raise RuntimeError
  | Some s =>
      let n := length s in
      Ok (mkTensor s
            (zip_with f
               (expand (pad_shape n (shape a)) s (data a))
               (expand (pad_shape n (shape b)) s (data b))))
  end.
End TensorOps.

(** ** The model wrapper: [UnetModel.forward] *)

(** The pretrained network's own forward pass,
    [self.unet.forward(samples, timestep, encoder_hidden_states,
    return_dict=False)[0]]. *)
Class UNetForward (E : Type) : Type :=
  unet_forward : Tensor E -> Tensor E -> Tensor E -> result (Tensor E).

(** One logged invocation of the underlying network. *)
Record UnetCall (E : Type) : Type := mkCall {
  call_sample : Tensor E;
  call_timestep : Tensor E;
  call_encoder_hidden_states : Tensor E
}.
Arguments mkCall {E} _ _ _.

Section Wrapper.
Context {E : Type} `{ElemOps E} `{UNetForward E}.

Definition call_unet (samples timestep encoder_hidden_states : Tensor E)
  : M (list (UnetCall E)) (Tensor E) :=
  fun log =>
    (log ++ [mkCall samples timestep encoder_hidden_states],
     unet_forward samples timestep encoder_hidden_states).

Definition forward (sample timestep encoder_hidden_states guidance_scale : Tensor E)
  : M (list (UnetCall E)) (Tensor E) :=
  let* samples := lift (torch_cat (replicate 2 sample)) in
  let* unet_out := call_unet samples timestep encoder_hidden_states in
  let* chunks := lift (torch_chunk unet_out 2) in
  let* (noise_pred_uncond, noise_pred_text) := lift (unpack2 chunks) in
  let* diff := lift (elementwise esub noise_pred_text noise_pred_uncond) in
  let* scaled := lift (elementwise emul guidance_scale diff) in
  let* noise_pred := lift (elementwise eadd noise_pred_uncond scaled) in
  ret noise_pred.
End Wrapper.

(** ** The export driver: data *)

Inductive dtype : Type := float16 | float32.

(** The attributes of [unet.config] that the driver reads. *)
Record UNetConfig : Type := mkConfig {
  layers_per_block : Z;
  cross_attention_dim : Z;
  in_channels : Z
}.

(** A learned parameter tensor, identified by its storage. *)
Definition Weight : Type := N.

(** [diffusers.UNet2DConditionModel], as far as the driver observes it. *)
Record UNet2DConditionModel : Type := mkUNet {
  config : UNetConfig;
  named_parameters : list (string * Weight);
  unet_dtype : dtype
}.

(** [class UnetModel(torch.nn.Module)]: its only attribute is [self.unet]. *)
Record UnetModel : Type := mkUnetModel { unet : UNet2DConditionModel }.

(** [unet_model.to(dtype)]. *)
Definition to (m : UnetModel) (d : dtype) : UnetModel :=
  mkUnetModel (mkUNet (config (unet m)) (named_parameters (unet m)) d).

(** [AbstractTensor(size..., dtype=dtype)]: the sizes and the element type. *)
Record AbstractTensor : Type := mkAbstractTensor {
  at_size : list Z;
  at_dtype : dtype
}.

(** The [params] attribute of the class body. *)
Inductive Params : Type :=
  | export_parameters (model : UnetModel)
  | export_parameters_external (model : UnetModel) (external_scope : string)
      (name_mapper : gmap string Weight).

(** The class [CompiledUnet(CompiledModule)] that one call declares:
    its [params] and the [main] entry point with its four placeholders,
    the function it traces and the decomposition policy it traces with. *)
Record CompiledUnet : Type := mkCompiledUnet {
  params : Params;
  main_sample : AbstractTensor;
  main_timestep : AbstractTensor;
  main_encoder_hidden_states : AbstractTensor;
  main_guidance_scale : AbstractTensor;
  main_traces : UnetModel;
  main_decompose_ops : list string
}.

(** Python values that [export_unet_model] can return. *)
Inductive pyval : Type :=
  | PyNone
  | PyStr (s : string).

(** What a run does to the outside, in order. Calls to collaborators that
    can fail carry their outcome. *)
Inductive Event : Type :=
  | EvFromPretrained (name subfolder : string)
  | EvSaveWeights (path format : string) (weights : list (string * Weight))
  | EvCapture (cls : CompiledUnet) (import_to : string) (outcome : result string)
  | EvOpen (path : string)
  | EvWrite (path content : string)
  | EvUpload (file_path file_name : string) (outcome : result string)
  | EvCompile (module_str : string) (device target_triple max_alloc : option string)
      (safe_name : string) (outcome : result unit)
  | EvPrint (line : string).

(** The process state: the module-level list
    [shark_turbine.dynamo.passes.DEFAULT_DECOMPOSITIONS], which every
    call shares, and the log of events. *)
Record World : Type := mkWorld {
  DEFAULT_DECOMPOSITIONS : list string;
  events : list Event
}.

(** The script's collaborators. [get_mlir_module cls import_to] stands for
    [str(CompiledModule.get_mlir_module(cls(context=Context(),
    import_to=import_to)))]. *)
Class Collaborators : Type := {
  from_pretrained : string -> string -> result UNet2DConditionModel;
  get_mlir_module : CompiledUnet -> string -> result string;
  uploadToBlobStorage : string -> string -> result string;
  compile_to_vmfb :
    string -> option string -> option string -> option string -> string -> result unit;
  create_safe_name : string -> string -> string;
  abspath : string -> string
}.

(** ** The export driver: effects *)

Definition emit (e : Event) : M World unit :=
  fun w => (mkWorld (DEFAULT_DECOMPOSITIONS w) (events w ++ [e]), Ok tt).

(** A call to a collaborator: logged with its outcome, which it returns. *)
Definition call {A} (ev : result A -> Event) (r : result A) : M World A :=
  fun w => (mkWorld (DEFAULT_DECOMPOSITIONS w) (events w ++ [ev r]), r).

Definition raise {S A} (e : exn) : M S A := fun s => (s, Raise e).

(** [decomp_list.extend(ops)] where [decomp_list] is another name of the
    module-level list. *)
Definition extend_DEFAULT_DECOMPOSITIONS (ops : list string) : M World unit :=
  fun w => (mkWorld (DEFAULT_DECOMPOSITIONS w ++ ops) (events w), Ok tt).

Definition read_DEFAULT_DECOMPOSITIONS : M World (list string) :=
  fun w => (w, Ok (DEFAULT_DECOMPOSITIONS w)).

(** [with open(path, "w+") as f: f.write(v)]: the file is opened, hence
    created or emptied, and then written; writing a value that is not a
    string raises [TypeError]. Failures of the file system itself (a
    missing directory, a full disk) are outside the model. *)
Definition open_and_write (path : string) (v : pyval) : M World unit :=
  emit (EvOpen path) ;;
  match v with
  | PyStr s => emit (EvWrite path s)
  | PyNone => raise TypeError
  end.

(** [print(a, b)]. *)
Definition print2 (a b : string) : M World unit :=
  emit (EvPrint (a +:+ " " +:+ b)).

(** Truth value of an optional string: [None] and the empty string are false. *)
Definition truthy (s : option string) : bool :=
  match s with
  | Some s => negb (s =? EmptyString)%string
  | None => false
  end.

(** [s.replace(old, new)] for one-character [old] and [new]. *)
Fixpoint replace (old new : ascii) (s : string) : string :=
  match s with
  | EmptyString => EmptyString
  | String c s' => String (if Ascii.eqb c old then new else c) (replace old new s')
  end.

(** [compile_to == v] and [compile_to != v]. *)
Definition py_eq (a : option string) (v : string) : bool :=
  match a with
  | Some s => (s =? v)%string
  | None => false
  end.

Definition attention_decompositions : list string :=
  [ "torch.ops.aten._scaled_dot_product_flash_attention_for_cpu";
    "torch.ops.aten._scaled_dot_product_flash_attention.default" ].

(** Modelled from the spec: [utils.save_external_weights] is not in the
    file. When a storage format is selected it populates the weight-name
    mapping from the model's parameters and, if a path is given, writes
    the weights file; when no format is selected it does nothing. *)
Definition save_external_weights (mapper : gmap string Weight) (model : UnetModel)
    (external_weights external_weight_path : option string)
  : M World (gmap string Weight) :=
  match external_weights with
  | None => ret mapper
  | Some format =>
      let mapper' :=
        foldl (fun m nw => <[fst nw := snd nw]> m) mapper
              (named_parameters (unet model)) in
      match external_weight_path with
      | Some path =>
          if truthy external_weight_path
          then emit (EvSaveWeights path format (named_parameters (unet model))) ;;
               ret mapper'
          else ret mapper'
      | None => ret mapper'
      end
  end.

Section Driver.
Context `{Collaborators}.

(** [UnetModel.__init__]. *)
Definition UnetModel_init (hf_model_name : string) (hf_auth_token : option string)
  : M World UnetModel :=
  let* net := call (fun _ => EvFromPretrained hf_model_name "unet")
                   (from_pretrained hf_model_name "unet") in
  ret (mkUnetModel net).

Definition export_unet_model
    (unet_model : UnetModel) (hf_model_name : string)
    (batch_size height width : Z) (precision : string) (max_length : Z)
    (hf_auth_token compile_to external_weights external_weight_path
       device target_triple max_alloc : option string)
    (upload_ir decomp_attn : bool)
  : M World pyval :=
  let mapper : gmap string Weight := ∅ in
  (if decomp_attn
   then extend_DEFAULT_DECOMPOSITIONS attention_decompositions
   else ret tt) ;;
  let dtype := if (precision =? "fp16")%string then float16 else float32 in
  let unet_model := to unet_model dtype in
  let* mapper :=
    save_external_weights mapper unet_model external_weights external_weight_path in
  let encoder_hidden_states_sizes :=
    [ layers_per_block (config (unet unet_model));
      max_length;
      cross_attention_dim (config (unet unet_model)) ] in
  let sample :=
    [ batch_size; in_channels (config (unet unet_model));
      (height / 8)%Z; (width / 8)%Z ] in
  let* decomp_list := read_DEFAULT_DECOMPOSITIONS in
  let cls :=
    mkCompiledUnet
      (if truthy external_weights
       then export_parameters_external unet_model EmptyString mapper
       else export_parameters unet_model)
      (mkAbstractTensor sample dtype)
      (mkAbstractTensor [1%Z] dtype)
      (mkAbstractTensor encoder_hidden_states_sizes dtype)
      (mkAbstractTensor [1%Z] dtype)
      unet_model
      decomp_list in
  let import_to := if py_eq compile_to "linalg" then "INPUT" else "IMPORT" in
  let* module_str := call (EvCapture cls import_to) (get_mlir_module cls import_to) in
  let safe_name := create_safe_name hf_model_name "-unet" in
  let* blob_name :=
    if upload_ir
    then
      open_and_write (safe_name +:+ ".mlir") (PyStr module_str) ;;
      let model_name_upload := replace "/" "-" hf_model_name in
      let model_name_upload := model_name_upload +:+ "_unet" in
      let* blob_name :=
        call (EvUpload (abspath (safe_name +:+ ".mlir"))
                       (model_name_upload +:+ "/" +:+ model_name_upload +:+ ".mlir"))
             (uploadToBlobStorage
                (abspath (safe_name +:+ ".mlir"))
                (model_name_upload +:+ "/" +:+ model_name_upload +:+ ".mlir")) in
      ret (Some blob_name)
    else ret None in
  if negb (py_eq compile_to "vmfb")
  then ret (PyStr module_str)
  else
    call (EvCompile module_str device target_triple max_alloc safe_name)
         (compile_to_vmfb module_str device target_triple max_alloc safe_name) ;;
    if upload_ir
    then match blob_name with
         | Some b => ret (PyStr b)
         | None => raise UnboundLocalError
         end
    else ret PyNone.
End Driver.

(** ** The command line *)

(** The namespace that [parser.parse_args()] returns. *)
Record Args : Type := mkArgs {
  args_hf_auth_token : option string;
  args_hf_model_name : string;
  args_batch_size : Z;
  args_height : Z;
  args_width : Z;
  args_precision : string;
  args_max_length : Z;
  args_compile_to : option string;
  args_external_weight_path : option string;
  args_external_weights : option string;
  args_device : option string;
  args_iree_target_triple : option string;
  args_vulkan_max_allocation : option string
}.

(** The namespace when no flag is given. *)
Definition parser_defaults : Args :=
  mkArgs None "CompVis/stable-diffusion-v1-4" 1 512 512 "fp16" 77 None
         (Some EmptyString) None (Some "cpu") (Some EmptyString) (Some "4294967296").

Section CommandLine.
Context `{Collaborators}.

(** The body of [if __name__ == "__main__":]. [upload_ir] and
    [decomp_attn] are not passed and take their defaults. *)
Definition main (args : Args) : M World unit :=
  let* unet_model :=
    UnetModel_init (args_hf_model_name args) (args_hf_auth_token args) in
  let* mod_str :=
    export_unet_model unet_model
      (args_hf_model_name args) (args_batch_size args)
      (args_height args) (args_width args) (args_precision args)
      (args_max_length args) (args_hf_auth_token args)
      (args_compile_to args) (args_external_weights args)
      (args_external_weight_path args) (args_device args)
      (args_iree_target_triple args) (args_vulkan_max_allocation args)
      false true in
  let safe_name := create_safe_name (args_hf_model_name args) "-unet" in
  open_and_write (safe_name +:+ ".mlir") mod_str ;;
  print2 "Saved to" (safe_name +:+ ".mlir").
End CommandLine.

(** ** Observations on the event log *)

(** The events that a computation adds to the log. *)
Definition emitted {A} (m : M World A) (w : World) : list Event :=
  drop (length (events w)) (events (fst (m w))).

Definition is_compile (e : Event) : bool :=
  match e with EvCompile _ _ _ _ _ _ => true | _ => false end.

Definition is_upload (e : Event) : bool :=
  match e with EvUpload _ _ _ => true | _ => false end.

Definition is_save_weights (e : Event) : bool :=
  match e with EvSaveWeights _ _ _ => true | _ => false end.

Definition is_print (e : Event) : bool :=
  match e with EvPrint _ => true | _ => false end.

(** The classes handed to graph capture, and what capture answered. *)
Definition declared_classes (evs : list Event) : list CompiledUnet :=
  omap (fun e => match e with EvCapture cls _ _ => Some cls | _ => None end) evs.

Definition capture_outcomes (evs : list Event) : list (result string) :=
  omap (fun e => match e with EvCapture _ _ r => Some r | _ => None end) evs.

(** The identifiers that successful uploads returned. *)
Definition uploaded_blobs (evs : list Event) : list string :=
  omap (fun e => match e with EvUpload _ _ (Ok b) => Some b | _ => None end) evs.

(** A graph capture or an upload that raised. *)
Definition step_failed (e : Event) : bool :=
  match e with
  | EvCapture _ _ (Raise _) => true
  | EvUpload _ _ (Raise _) => true
  | _ => false
  end.

Definition steps_ok (evs : list Event) : bool :=
  forallb (fun e => negb (step_failed e)) evs.

(** The returned value is a non-empty identifier of a blob that the run
    uploaded. *)
Definition returns_uploaded_blob (r : result pyval) (evs : list Event) : bool :=
  match r with
  | Ok (PyStr s) =>
      negb (s =? EmptyString)%string && existsb (String.eqb s) (uploaded_blobs evs)
  | _ => false
  end.

(** The class with another decomposition policy. *)
Definition with_decompose_ops (cls : CompiledUnet) (ops : list string) : CompiledUnet :=
  mkCompiledUnet (params cls) (main_sample cls) (main_timestep cls)
                 (main_encoder_hidden_states cls) (main_guidance_scale cls)
                 (main_traces cls) ops.

(** Modelled from the spec: graph capture ([jittable] with its
    [decompose_ops]) is not in the file. The glossary defines the
    decomposition policy as a set of operators to expand, so capture
    answers alike for two policies with the same members. *)
Definition policy_as_set `{Collaborators} : Prop :=
  forall (cls : CompiledUnet) (ops : list string) (import_to : string),
    (forall op, In op (main_decompose_ops cls) <-> In op ops) ->
    get_mlir_module (with_decompose_ops cls ops) import_to =
    get_mlir_module cls import_to.

(** The namespace with another [--hf_auth_token]. *)
Definition with_hf_auth_token (args : Args) (token : option string) : Args :=
  mkArgs token (args_hf_model_name args) (args_batch_size args)
         (args_height args) (args_width args) (args_precision args)
         (args_max_length args) (args_compile_to args)
         (args_external_weight_path args) (args_external_weights args)
         (args_device args) (args_iree_target_triple args)
         (args_vulkan_max_allocation args).

(** The namespace with another [--compile_to]. *)
Definition with_compile_to (args : Args) (stage : option string) : Args :=
  mkArgs (args_hf_auth_token args) (args_hf_model_name args) (args_batch_size args)
         (args_height args) (args_width args) (args_precision args)
         (args_max_length args) stage
         (args_external_weight_path args) (args_external_weights args)
         (args_device args) (args_iree_target_triple args)
         (args_vulkan_max_allocation args).

(** ** Concrete collaborators, for evaluating the definitions *)

Definition Z_ops : ElemOps Z :=
  {| eadd := Z.add; esub := Z.sub; emul := Z.mul |}.

(** A network that keeps the shape and adds to each element its position. *)
Definition position_unet : UNetForward Z :=
  fun samples _ _ =>
    Ok (mkTensor (shape samples) (imap (fun i x => (x + Z.of_nat i)%Z) (data samples))).

(** A network that answers with a single row, whatever the batch. *)
Definition one_row_unet : UNetForward Z :=
  fun samples _ _ =>
    Ok (mkTensor (1 :: tail (shape samples))
                 (take (numel (tail (shape samples))) (data samples))).

(** The configuration of the Stable Diffusion v1.4 network, with two
    parameters standing for its weights. *)
Definition sd_unet : UNet2DConditionModel :=
  mkUNet (mkConfig 2 768 4)
         [("conv_in.weight", 1%N); ("conv_in.bias", 2%N)] float32.

(** Collaborators that always succeed. The module text depends on the
    import stage only; the blob name on the uploaded file name. *)
Definition stub_collaborators : Collaborators :=
  {| from_pretrained := fun _ _ => Ok sd_unet;
     get_mlir_module := fun _ import_to => Ok ("module @compiled_unet // " +:+ import_to);
     uploadToBlobStorage := fun _ file_name => Ok ("blob:" +:+ file_name);
     compile_to_vmfb := fun _ _ _ _ _ => Ok tt;
     create_safe_name := fun name suffix => replace "/" "_" name +:+ suffix;
     abspath := fun p => "/work/" +:+ p |}.

(** The driver on the stubs, with the parser's defaults but for the
    stage and the upload switch. *)
Definition stub_export (compile_to : option string) (upload_ir : bool) : M World pyval :=
  @export_unet_model stub_collaborators (mkUnetModel sd_unet)
    "CompVis/stable-diffusion-v1-4" 1 512 512 "fp16" 77 None compile_to
    None (Some EmptyString) (Some "cpu") (Some EmptyString) (Some "4294967296")
    upload_ir true.

(** A process in which the module-level list holds one decomposition. *)
Definition fresh_process : World :=
  mkWorld ["torch.ops.aten.addmm"] [].

(** ** Further observations *)

(** Opening or writing a text file through [open]. The weights file and the
    compiled blob are written by collaborators and have events of their own
    ([EvSaveWeights], [EvCompile]). *)
Definition is_file_event (e : Event) : bool :=
  match e with
  | EvOpen _ => true
  | EvWrite _ _ => true
  | _ => false
  end.

(** What the uploads answered, and the import stages asked of graph capture. *)
Definition upload_outcomes (evs : list Event) : list (result string) :=
  omap (fun e => match e with EvUpload _ _ r => Some r | _ => None end) evs.

Definition capture_stages (evs : list Event) : list string :=
  omap (fun e => match e with EvCapture _ i _ => Some i | _ => None end) evs.

(** The exception with which a logged collaborator call ended, if it raised. *)
Definition raised_by (e : Event) : option exn :=
  match e with
  | EvCapture _ _ (Raise x) => Some x
  | EvUpload _ _ (Raise x) => Some x
  | EvCompile _ _ _ _ _ (Raise x) => Some x
  | _ => None
  end.

(** The process state after [n] runs of a computation in a row. *)
Fixpoint after_runs {A} (n : nat) (m : M World A) (w : World) : World :=
  match n with
  | 0 => w
  | S n' => after_runs n' m (fst (m w))
  end.

(** A network that raises. *)
Definition failing_unet : UNetForward Z :=
  fun _ _ _ => Raise (External "unet").

(** Collaborators with fixed answers. *)
Definition fixed_collaborators (loaded : result UNet2DConditionModel)
    (captured uploaded : result string) (compiled : result unit) : Collaborators :=
  {| from_pretrained := fun _ _ => loaded;
     get_mlir_module := fun _ _ => captured;
     uploadToBlobStorage := fun _ _ => uploaded;
     compile_to_vmfb := fun _ _ _ _ _ => compiled;
     create_safe_name := fun name suffix => replace "/" "_" name +:+ suffix;
     abspath := fun p => "/work/" +:+ p |}.

(** Collaborators whose graph capture answers by the decomposition policy
    it is given: the module text tells whether the flash-attention kernel
    is among the operators to decompose. *)
Definition policy_sensitive_collaborators : Collaborators :=
  {| from_pretrained := fun _ _ => Ok sd_unet;
     get_mlir_module := fun cls _ =>
       Ok (if existsb (String.eqb "torch.ops.aten._scaled_dot_product_flash_attention.default")
                      (main_decompose_ops cls)
           then "module @compiled_unet // attention decomposed"
           else "module @compiled_unet // attention kernel kept");
     uploadToBlobStorage := fun _ file_name => Ok ("blob:" +:+ file_name);
     compile_to_vmfb := fun _ _ _ _ _ => Ok tt;
     create_safe_name := fun name suffix => replace "/" "_" name +:+ suffix;
     abspath := fun p => "/work/" +:+ p |}.

(** The driver on collaborators with fixed answers, otherwise as [stub_export]. *)
Definition fixed_export (captured uploaded : result string) (compiled : result unit)
    (compile_to : option string) (upload_ir : bool) : M World pyval :=
  @export_unet_model (fixed_collaborators (Ok sd_unet) captured uploaded compiled)
    (mkUnetModel sd_unet)
    "CompVis/stable-diffusion-v1-4" 1 512 512 "fp16" 77 None compile_to
    None (Some EmptyString) (Some "cpu") (Some EmptyString) (Some "4294967296")
    upload_ir true.

(** * Properties *)

(** ** Facts about the tensor operations *)

Section TensorFacts.
Context {E : Type}.
Implicit Types (d : list E) (s r : list nat).

Lemma numel_cons n r : numel (n :: r) = n * numel r.
Proof. reflexivity. Qed.

Lemma numel_ones k : numel (replicate k 1) = 1.
Proof. induction k as [|k IH]; simpl; [reflexivity | rewrite IH; reflexivity]. Qed.

Lemma pad_shape_full s : pad_shape (length s) s = s.
Proof. unfold pad_shape. rewrite Nat.sub_diag. reflexivity. Qed.

Lemma pad_shape_scalar n : pad_shape n [] = replicate n 1.
Proof. unfold pad_shape. simpl. rewrite Nat.sub_0_r. apply app_nil_r. Qed.

Lemma pad_shape_one n : 0 < n -> pad_shape n [1] = replicate n 1.
Proof.
  intros Hn. unfold pad_shape. simpl.
  destruct n as [|n]; [lia|].
  replace (S n - 1) with n by lia.
  change [1] with (replicate 1 1).
  rewrite <- replicate_add. f_equal. lia.
Qed.

Lemma broadcast_dims_refl s : broadcast_dims s s = Some s.
Proof.
  induction s as [|n r IH]; simpl; [reflexivity|].
  rewrite IH, Nat.eqb_refl. reflexivity.
Qed.

Lemma broadcast_dims_ones s : broadcast_dims (replicate (length s) 1) s = Some s.
Proof.
  induction s as [|n r IH]; simpl; [reflexivity|].
  rewrite IH. destruct n as [|[|n]]; reflexivity.
Qed.

(** Cutting a list into [n] consecutive rows of [k] elements and gluing
    them back gives the list. *)
Lemma concat_rows d n k :
  length d = n * k ->
  concat (map (fun i => take k (drop (i * k) d)) (seq 0 n)) = d.
Proof.
  revert d. induction n as [|n IH]; intros d Hd.
  - simpl in *. destruct d; [reflexivity | discriminate].
  - rewrite seq_S, map_app, concat_app. simpl.
    rewrite app_nil_r.
    transitivity (take (n * k) d ++ drop (n * k) d); [| apply take_drop].
    f_equal.
    + rewrite <- (IH (take (n * k) d)).
      * f_equal. apply map_ext_in. intros i Hi.
        apply in_seq in Hi.
        rewrite !take_drop_commute, take_take.
        do 2 f_equal. nia.
      * rewrite length_take. nia.
    + apply take_ge. rewrite length_drop. nia.
Qed.

Lemma expand_refl s d : length d = numel s -> expand s s d = d.
Proof.
  revert d. induction s as [|n r IH]; intros d Hd; simpl; [reflexivity|].
  rewrite Nat.eqb_refl.
  rewrite numel_cons in Hd.
  transitivity (concat (map (fun i => take (numel r) (drop (i * numel r) d)) (seq 0 n)));
    [| apply concat_rows, Hd].
  f_equal. apply map_ext_in. intros i Hi. apply in_seq in Hi.
  apply IH. rewrite length_take, length_drop. nia.
Qed.

Lemma concat_replicate_replicate (x : E) m k :
  concat (replicate m (replicate k x)) = replicate (m * k) x.
Proof.
  induction m as [|m IH]; simpl; [reflexivity|].
  rewrite IH, <- replicate_add. reflexivity.
Qed.

Lemma expand_ones s (x : E) :
  expand (replicate (length s) 1) s [x] = replicate (numel s) x.
Proof.
  induction s as [|n r IH]; simpl; [reflexivity|].
  rewrite numel_ones.
  destruct n as [|[|n]].
  - reflexivity.
  - simpl. rewrite IH, app_nil_r. f_equal. lia.
  - cbn [Nat.eqb]. rewrite IH. apply concat_replicate_replicate.
Qed.

Lemma zip_with_replicate_l (f : E -> E -> E) x d :
  zip_with f (replicate (length d) x) d = map (f x) d.
Proof. induction d as [|y d IH]; simpl; [reflexivity | rewrite IH; reflexivity]. Qed.

(** Operands of one shape: no broadcasting, the operator is applied
    position by position. *)
Lemma elementwise_same_shape (f : E -> E -> E) (a b : Tensor E) :
  shape a = shape b -> wf a -> wf b ->
  elementwise f a b = Ok (mkTensor (shape a) (zip_with f (data a) (data b))).
Proof.
  intros Hs Ha Hb. unfold elementwise, broadcast_shapes.
  rewrite <- Hs, Nat.max_id, pad_shape_full, broadcast_dims_refl.
  rewrite pad_shape_full, !expand_refl; [reflexivity | |]; unfold wf in *; congruence.
Qed.

(** A one-element left operand is broadcast over the right one. *)
Lemma elementwise_scalar (f : E -> E -> E) (g t : Tensor E) x :
  data g = [x] -> shape g = [] \/ shape g = [1] -> shape t <> [] -> wf t ->
  elementwise f g t = Ok (mkTensor (shape t) (map (f x) (data t))).
Proof.
  intros Hx Hg Hne Ht. unfold elementwise, broadcast_shapes.
  assert (Hlen : 0 < length (shape t)) by (destruct (shape t); [congruence | simpl; lia]).
  assert (Hmax : max (length (shape g)) (length (shape t)) = length (shape t))
    by (destruct Hg as [-> | ->]; simpl; lia).
  assert (Hpad : pad_shape (length (shape t)) (shape g) = replicate (length (shape t)) 1)
    by (destruct Hg as [-> | ->]; [apply pad_shape_scalar | apply pad_shape_one, Hlen]).
  rewrite Hmax, Hpad, pad_shape_full, broadcast_dims_ones.
  rewrite Hpad, pad_shape_full, Hx, expand_ones, expand_refl by exact Ht.
  unfold wf in Ht. rewrite <- Ht, zip_with_replicate_l. reflexivity.
Qed.

(** [torch.cat([t] * 2)] doubles the leading dimension. *)
Lemma torch_cat_twice (t : Tensor E) b r :
  shape t = b :: r ->
  torch_cat (replicate 2 t) = Ok (mkTensor ((b + b) :: r) (data t ++ data t)).
Proof.
  intros Hs. unfold torch_cat. simpl. rewrite Hs. simpl.
  rewrite bool_decide_eq_true_2 by reflexivity. simpl.
  rewrite app_nil_r, Nat.add_0_r. reflexivity.
Qed.

Lemma half_of_double b : (b + b + 2 - 1) / 2 = b.
Proof.
  symmetry. apply (Nat.div_unique _ 2 b 1); lia.
Qed.

(** [chunk(2)] of a tensor with an even leading dimension: two pieces,
    the first and the second half of the rows. *)
Lemma torch_chunk_even (t : Tensor E) b r :
  shape t = (b + b) :: r -> wf t ->
  torch_chunk t 2 =
    Ok [ mkTensor (b :: r) (take (b * numel r) (data t));
         mkTensor (b :: r) (drop (b * numel r) (data t)) ].
Proof.
  intros Hs Hwf. unfold torch_chunk. rewrite Hs.
  change (2 =? 0) with false. cbv beta iota zeta.
  rewrite !half_of_double.
  unfold wf in Hwf. rewrite Hs, numel_cons in Hwf.
  destruct b as [|b].
  - simpl. repeat f_equal.
    simpl in Hwf. destruct (data t); [reflexivity | discriminate].
  - change (S b =? 0) with false. cbv iota.
    assert (Hk : (S b + S b + S b - 1) / S b = 2)
      by (symmetry; apply (Nat.div_unique _ (S b) 2 b); lia).
    rewrite Hk. cbn [seq map].
    rewrite Nat.mul_0_l, Nat.sub_0_r, Nat.mul_1_l.
    replace (S b + S b - S b) with (S b) by lia.
    rewrite Nat.min_id, Nat.min_l by lia.
    rewrite drop_0. repeat f_equal.
    apply take_ge. rewrite length_drop. lia.
Qed.
End TensorFacts.

(** The operations on small tensors. *)

Example chunk_three_rows :
  torch_chunk (mkTensor [3; 1] [1; 2; 3]%Z) 2
  = Ok [mkTensor [2; 1] [1; 2]%Z; mkTensor [1; 1] [3%Z]].
Proof. reflexivity. Qed.

Example chunk_one_row :
  torch_chunk (mkTensor [1; 2] [1; 2]%Z) 2 = Ok [mkTensor [1; 2] [1; 2]%Z].
Proof. reflexivity. Qed.

Example chunk_no_rows :
  torch_chunk (mkTensor [0; 2] ([] : list Z)) 2
  = Ok [mkTensor [0; 2] []; mkTensor [0; 2] []].
Proof. reflexivity. Qed.

Example cat_zero_dimensional :
  torch_cat (replicate 2 (mkTensor [] [1%Z])) = Raise RuntimeError.
Proof. reflexivity. Qed.

Example broadcast_one_row :
  elementwise Z.add (mkTensor [1; 2] [10; 20]%Z) (mkTensor [2; 2] [1; 2; 3; 4]%Z)
  = Ok (mkTensor [2; 2] [11; 22; 13; 24]%Z).
Proof. reflexivity. Qed.

Example broadcast_mismatch :
  elementwise Z.add (mkTensor [3] [1; 2; 3]%Z) (mkTensor [2] [1; 2]%Z)
  = Raise RuntimeError.
Proof. reflexivity. Qed.

(** ** The model wrapper *)

Section WrapperFacts.
Context {E : Type} `{ElemOps E} `{UNetForward E}.

Lemma guidance_pointwise (x : E) (u t : list E) :
  zip_with eadd u (map (emul x) (zip_with esub t u)) =
  zip_with (fun a c => eadd a (emul x (esub c a))) u t.
Proof.
  revert t. induction u as [|a u IH]; intros [|c t]; simpl; try reflexivity.
  rewrite IH. reflexivity.
Qed.

(** X5. Whatever the network answers, [forward] has called it once when it
    is done, on the sample duplicated along the batch dimension. *)
Lemma forward_calls_unet_once (sample timestep ehs g : Tensor E) b r log :
  shape sample = b :: r ->
  fst (forward sample timestep ehs g log) =
    log ++ [mkCall (mkTensor ((b + b) :: r) (data sample ++ data sample)) timestep ehs].
Proof.
  intros Hs. unfold forward, bind, lift, call_unet, ret.
  rewrite (torch_cat_twice sample b r Hs).
  destruct (unet_forward _ timestep ehs) as [out|e]; [|reflexivity].
  destruct (torch_chunk out 2) as [chunks|e]; [|reflexivity].
  destruct (unpack2 chunks) as [[u t]|e]; [|reflexivity].
  destruct (elementwise esub t u) as [diff|e]; [|reflexivity].
  destruct (elementwise emul g diff) as [scaled|e]; [|reflexivity].
  destruct (elementwise eadd u scaled); reflexivity.
Qed.

(** C1. For a sample with a batch dimension, a one-element guidance
    scale and a network that answers with a well-formed tensor whose
    batch dimension is that of its input: [forward] concatenates two
    copies of the sample along the batch dimension, runs the network
    exactly once, on that duplicated batch, splits the output into its
    two halves [uncond] and [text], and returns
    [uncond + guidance_scale * (text - uncond)], one tensor with the
    shape of one half (the shape of the sample itself when the network
    keeps the remaining dimensions). *)
Theorem forward_classifier_free_guidance
    (sample timestep ehs g out : Tensor E) (x : E) (b : nat) (r r' : list nat)
    (log : list (UnetCall E)) :
  let samples := mkTensor ((b + b) :: r) (data sample ++ data sample) in
  let uncond := mkTensor (b :: r') (take (b * numel r') (data out)) in
  let text := mkTensor (b :: r') (drop (b * numel r') (data out)) in
  let noise_pred :=
    mkTensor (b :: r')
      (zip_with (fun u t => eadd u (emul x (esub t u))) (data uncond) (data text)) in
  shape sample = b :: r ->
  data g = [x] -> shape g = [] \/ shape g = [1] ->
  unet_forward samples timestep ehs = Ok out ->
  shape out = (b + b) :: r' -> wf out ->
  torch_cat [sample; sample] = Ok samples /\
  torch_chunk out 2 = Ok [uncond; text] /\
  forward sample timestep ehs g log =
    (log ++ [mkCall samples timestep ehs], Ok noise_pred) /\
  shape noise_pred = shape uncond /\
  (r' = r -> shape noise_pred = shape sample).
Proof.
  intros samples uncond text noise_pred Hs Hx Hg Hnet Hout Hwf.
  assert (Hcat : torch_cat (replicate 2 sample) = Ok samples)
    by exact (torch_cat_twice sample b r Hs).
  assert (Hchunk : torch_chunk out 2 = Ok [uncond; text])
    by exact (torch_chunk_even out b r' Hout Hwf).
  assert (Hlen : length (data out) = (b + b) * numel r')
    by (unfold wf in Hwf; rewrite Hout in Hwf; exact Hwf).
  assert (Hlu : length (data uncond) = b * numel r')
    by (unfold uncond; cbn [data]; rewrite length_take; nia).
  assert (Hlt : length (data text) = b * numel r')
    by (unfold text; cbn [data]; rewrite length_drop; nia).
  assert (Hu : wf uncond) by exact Hlu.
  assert (Ht : wf text) by exact Hlt.
  split; [exact Hcat|]. split; [exact Hchunk|].
  split; [|split; [reflexivity | intros ->; symmetry; exact Hs]].
  unfold forward, bind, lift, call_unet, ret.
  rewrite Hcat, Hnet, Hchunk. cbn [unpack2].
  rewrite (elementwise_same_shape esub text uncond eq_refl Ht Hu).
  rewrite (elementwise_scalar emul g _ x Hx Hg); cycle 1.
  { discriminate. }
  { unfold wf. cbn [data shape]. change (shape text) with (b :: r').
    rewrite numel_cons, length_zip_with, Hlu, Hlt. lia. }
  rewrite elementwise_same_shape; cycle 1.
  { reflexivity. }
  { exact Hu. }
  { unfold wf. cbn [data shape]. change (shape text) with (b :: r').
    rewrite numel_cons, length_map, length_zip_with, Hlu, Hlt. lia. }
  cbn [data shape]. rewrite guidance_pointwise. reflexivity.
Qed.
End WrapperFacts.

Lemma forward_classifier_free_guidance_witness :
  @forward Z Z_ops position_unet
    (mkTensor [1; 2] [10; 20]%Z) (mkTensor [1] [5%Z]) (mkTensor [] [])
    (mkTensor [1] [7%Z]) [] =
    ([mkCall (mkTensor [2; 2] [10; 20; 10; 20]%Z) (mkTensor [1] [5%Z]) (mkTensor [] [])],
     Ok (mkTensor [1; 2] [24; 35]%Z)).
Proof.
  exact (proj1 (proj2 (proj2
    (@forward_classifier_free_guidance Z Z_ops position_unet
       (mkTensor [1; 2] [10; 20]%Z) (mkTensor [1] [5%Z]) (mkTensor [] [])
       (mkTensor [1] [7%Z]) (mkTensor [2; 2] [10; 21; 12; 23]%Z) 7%Z 1 [2] [2] []
       eq_refl eq_refl (or_intror eq_refl) eq_refl eq_refl eq_refl)))).
Defined.

(** A network whose answer has one row cannot be split in two: the
    unpacking raises, after the one call. *)
Example forward_one_row_answer :
  @forward Z Z_ops one_row_unet
    (mkTensor [1; 2] [10; 20]%Z) (mkTensor [1] [5%Z]) (mkTensor [] [])
    (mkTensor [1] [7%Z]) [] =
    ([mkCall (mkTensor [2; 2] [10; 20; 10; 20]%Z) (mkTensor [1] [5%Z]) (mkTensor [] [])],
     Raise ValueError).
Proof. reflexivity. Qed.

(** ** The export driver *)

(** Unfolds a run of the driver down to its collaborators' answers. *)
Ltac unfold_run :=
  unfold export_unet_model, save_external_weights,
    open_and_write, print2, bind, ret, lift, call, emit, raise,
    extend_DEFAULT_DECOMPOSITIONS, read_DEFAULT_DECOMPOSITIONS;
  cbn [fst snd events DEFAULT_DECOMPOSITIONS].

Section DriverFacts.
Context `{Collaborators}.

Lemma py_eq_true (a : option string) (v : string) :
  py_eq a v = true <-> a = Some v.
Proof.
  destruct a as [s|]; simpl.
  - rewrite String.eqb_eq. split; congruence.
  - split; discriminate.
Qed.

Lemma py_eq_false (a : option string) (v : string) :
  py_eq a v = false <-> a <> Some v.
Proof.
  rewrite <- py_eq_true. destruct (py_eq a v); split; congruence.
Qed.

(** One run of [export_unet_model], stage by stage: the state of the
    module-level list, the events in order and the returned value, as
    functions of the collaborators' answers. *)
Lemma export_unet_model_run
    (unet_model : UnetModel) (hf_model_name : string)
    (batch_size height width : Z) (precision : string) (max_length : Z)
    (hf_auth_token compile_to external_weights external_weight_path
       device target_triple max_alloc : option string)
    (upload_ir decomp_attn : bool) (d0 : list string) (evs0 : list Event) :
  let d1 := d0 ++ (if decomp_attn then attention_decompositions else []) in
  let dtype := if (precision =? "fp16")%string then float16 else float32 in
  let model := to unet_model dtype in
  let mapper : gmap string Weight :=
    match external_weights with
    | Some _ => foldl (fun m nw => <[fst nw := snd nw]> m) ∅ (named_parameters (unet model))
    | None => ∅
    end in
  let saved :=
    match external_weights, external_weight_path with
    | Some format, Some path =>
        if truthy external_weight_path
        then [EvSaveWeights path format (named_parameters (unet model))]
        else []
    | _, _ => []
    end in
  let cls :=
    mkCompiledUnet
      (if truthy external_weights
       then export_parameters_external model EmptyString mapper
       else export_parameters model)
      (mkAbstractTensor
         [batch_size; in_channels (config (unet model)); (height / 8)%Z; (width / 8)%Z]
         dtype)
      (mkAbstractTensor [1%Z] dtype)
      (mkAbstractTensor
         [layers_per_block (config (unet model)); max_length;
          cross_attention_dim (config (unet model))] dtype)
      (mkAbstractTensor [1%Z] dtype)
      model d1 in
  let import_to := if py_eq compile_to "linalg" then "INPUT" else "IMPORT" in
  let safe_name := create_safe_name hf_model_name "-unet" in
  let mlir := safe_name +:+ ".mlir" in
  let upload_name := replace "/" "-" hf_model_name +:+ "_unet" in
  let remote := upload_name +:+ "/" +:+ upload_name +:+ ".mlir" in
  let captured := get_mlir_module cls import_to in
  let uploaded := uploadToBlobStorage (abspath mlir) remote in
  export_unet_model unet_model hf_model_name batch_size height width precision
    max_length hf_auth_token compile_to external_weights external_weight_path
    device target_triple max_alloc upload_ir decomp_attn (mkWorld d0 evs0)
  =
  match captured with
  | Raise e => (mkWorld d1 (evs0 ++ saved ++ [EvCapture cls import_to captured]), Raise e)
  | Ok module_str =>
      let compiled :=
        compile_to_vmfb module_str device target_triple max_alloc safe_name in
      let upload_events :=
        if upload_ir
        then [EvOpen mlir; EvWrite mlir module_str; EvUpload (abspath mlir) remote uploaded]
        else [] in
      let before_compile := saved ++ [EvCapture cls import_to captured] ++ upload_events in
      match (if upload_ir then uploaded else Ok EmptyString) with
      | Raise e => (mkWorld d1 (evs0 ++ before_compile), Raise e)
      | Ok blob_name =>
          if py_eq compile_to "vmfb"
          then
            (mkWorld d1
               (evs0 ++ before_compile ++
                [EvCompile module_str device target_triple max_alloc safe_name compiled]),
             match compiled with
             | Raise e => Raise e
             | Ok _ => Ok (if upload_ir then PyStr blob_name else PyNone)
             end)
          else (mkWorld d1 (evs0 ++ before_compile), Ok (PyStr module_str))
      end
  end.
Proof.
  intros d1 dtype model mapper saved cls import_to safe_name mlir upload_name remote
    captured uploaded.
  subst d1 dtype model mapper saved cls import_to safe_name mlir upload_name remote
    captured uploaded.
  unfold_run.
  destruct decomp_attn, external_weights as [fmt|], external_weight_path as [p|],
    upload_ir;
    cbn [fst snd events DEFAULT_DECOMPOSITIONS].
  all: try (destruct (truthy (Some p)) eqn:Hp);
    cbn [fst snd events DEFAULT_DECOMPOSITIONS].
  all: rewrite ?app_nil_r.
  all: destruct (get_mlir_module _ _) as [module_str|e];
    cbn [fst snd events DEFAULT_DECOMPOSITIONS]; [|rewrite <- ?app_assoc; reflexivity].
  all: try (destruct (uploadToBlobStorage _ _) as [blob|e]);
    cbn [fst snd events DEFAULT_DECOMPOSITIONS].
  all: destruct (py_eq compile_to "vmfb");
    cbn [fst snd events DEFAULT_DECOMPOSITIONS negb].
  all: try (destruct (compile_to_vmfb _ _ _ _ _) as [[]|e]);
    cbn [fst snd events DEFAULT_DECOMPOSITIONS].
  all: rewrite <- ?app_assoc; cbn [app]; try reflexivity.
Qed.

(** The weights stage logs nothing or one write of the weights file. *)
Lemma weights_stage_events (external_weights external_weight_path : option string)
    (ws : list (string * Weight)) :
  let saved :=
    match external_weights, external_weight_path with
    | Some format, Some path =>
        if truthy external_weight_path then [EvSaveWeights path format ws] else []
    | _, _ => []
    end in
  saved = [] \/ exists path format, saved = [EvSaveWeights path format ws].
Proof.
  destruct external_weights as [f|], external_weight_path as [p|]; cbv zeta; auto.
  destruct (truthy (Some p)); eauto.
Qed.
End DriverFacts.

(** Rewrites a run with its stage-by-stage form and splits on what the
    weights stage logged. *)
Ltac run_equation :=
  unfold emitted; rewrite export_unet_model_run; cbv zeta;
  match goal with
  | |- context [EvCapture ?c ?i ?r] =>
      match goal with
      | |- context [?s ++ [EvCapture c i r] ++ _] =>
          let Hs := fresh "Hsaved" in
          let saved := fresh "saved" in
          pose proof (weights_stage_events _ _ _ : s = [] \/ _) as Hs;
          set (saved := s) in *;
          destruct Hs as [Hs | (? & ? & Hs)]; rewrite Hs; clear Hs saved
      end
  end.

(** Splits on the collaborators' answers and on the later branches. *)
Ltac run_cases :=
  cbv beta iota;
  repeat match goal with
    | |- context [match get_mlir_module ?c ?i with _ => _ end] =>
        destruct (get_mlir_module c i) eqn:?
    | |- context [match (if ?b then uploadToBlobStorage ?a ?n else _) with _ => _ end] =>
        is_var b; destruct b eqn:?; [destruct (uploadToBlobStorage a n) eqn:? |]
    | |- context [match uploadToBlobStorage ?a ?n with _ => _ end] =>
        destruct (uploadToBlobStorage a n) eqn:?
    | |- context [if py_eq ?c "vmfb" then _ else _] =>
        destruct (py_eq c "vmfb") eqn:?
    | |- context [match compile_to_vmfb ?m ?d ?t ?a ?s with _ => _ end] =>
        destruct (compile_to_vmfb m d t a s) eqn:?
    end;
  cbn [fst snd events DEFAULT_DECOMPOSITIONS];
  rewrite ?drop_app_length.

Section OneCall.
Context `{Collaborators}.
Variables (unet_model : UnetModel) (hf_model_name : string)
  (batch_size height width : Z) (precision : string) (max_length : Z)
  (hf_auth_token compile_to external_weights external_weight_path
     device target_triple max_alloc : option string)
  (upload_ir decomp_attn : bool).

Local Abbreviation run :=
  (export_unet_model unet_model hf_model_name batch_size height width precision
     max_length hf_auth_token compile_to external_weights external_weight_path
     device target_triple max_alloc upload_ir decomp_attn).

(** Every run hands exactly one class to graph capture. *)
Lemma declared_class_of_run (w : World) :
  let dtype := if (precision =? "fp16")%string then float16 else float32 in
  let model := to unet_model dtype in
  declared_classes (emitted run w) =
    [ mkCompiledUnet
        (if truthy external_weights
         then export_parameters_external model EmptyString
                match external_weights with
                | Some _ =>
                    foldl (fun m nw => <[fst nw := snd nw]> m) ∅
                          (named_parameters (unet model))
                | None => ∅
                end
         else export_parameters model)
        (mkAbstractTensor
           [batch_size; in_channels (config (unet model));
            (height / 8)%Z; (width / 8)%Z] dtype)
        (mkAbstractTensor [1%Z] dtype)
        (mkAbstractTensor
           [layers_per_block (config (unet model)); max_length;
            cross_attention_dim (config (unet model))] dtype)
        (mkAbstractTensor [1%Z] dtype)
        model
        (DEFAULT_DECOMPOSITIONS w ++
         (if decomp_attn then attention_decompositions else [])) ].
Proof.
  destruct w as [d0 evs0]. cbv zeta. run_equation; run_cases; reflexivity.
Qed.

(** After a run the module-level list holds what the run appended. *)
Lemma policy_after_run (w : World) :
  DEFAULT_DECOMPOSITIONS (fst (run w)) =
    DEFAULT_DECOMPOSITIONS w ++
    (if decomp_attn then attention_decompositions else []).
Proof.
  destruct w as [d0 evs0]. rewrite export_unet_model_run. cbv zeta.
  run_cases; reflexivity.
Qed.

(** C5. The backend compile step is not invoked when [compile_to] is not
    [vmfb] (in particular for [torch] and [linalg]); when it is [vmfb] and
    neither graph capture nor the upload raised, it is invoked, once, on
    the captured module text. *)
Theorem compile_step_iff_vmfb (w : World) :
  (compile_to <> Some "vmfb" ->
     List.filter is_compile (emitted run w) = []) /\
  (compile_to = Some "vmfb" -> steps_ok (emitted run w) = true ->
     exists module_str outcome,
       capture_outcomes (emitted run w) = [Ok module_str] /\
       List.filter is_compile (emitted run w) =
         [EvCompile module_str device target_triple max_alloc
                    (create_safe_name hf_model_name "-unet") outcome]).
Proof.
  destruct w as [d0 evs0]. split.
  - intros Hne. apply py_eq_false in Hne.
    run_equation; run_cases; try reflexivity; congruence.
  - intros Heq. apply py_eq_true in Heq.
    run_equation; run_cases; cbn; intros Hok;
      try discriminate; try congruence; eauto.
Qed.

(** C7, as the code has it. The upload is not attempted unless
    [upload_ir] is set, and is attempted once when it is set and graph
    capture succeeded. A run that returns gives back the module text
    when [compile_to] is not [vmfb], whether or not it uploaded, and the
    identifier that the upload returned when [compile_to] is [vmfb] and
    [upload_ir] is set. *)
Theorem upload_and_returned_value (w : World) :
  (upload_ir = false -> List.filter is_upload (emitted run w) = []) /\
  (upload_ir = true ->
     forall module_str, capture_outcomes (emitted run w) = [Ok module_str] ->
     length (List.filter is_upload (emitted run w)) = 1) /\
  (compile_to <> Some "vmfb" ->
     forall v, snd (run w) = Ok v ->
     exists module_str,
       capture_outcomes (emitted run w) = [Ok module_str] /\ v = PyStr module_str) /\
  (compile_to = Some "vmfb" -> upload_ir = true ->
     forall v, snd (run w) = Ok v ->
     exists blob_name,
       uploaded_blobs (emitted run w) = [blob_name] /\ v = PyStr blob_name).
Proof.
  destruct w as [d0 evs0]. repeat split.
  - intros ->. run_equation; run_cases; reflexivity.
  - intros ->. run_equation; run_cases; cbn; intros m Hm;
      try reflexivity; congruence.
  - intros Hne. apply py_eq_false in Hne.
    run_equation; run_cases; cbn; intros v Hv;
      try discriminate; try congruence;
      injection Hv as <-; eauto.
  - intros Heq ->. apply py_eq_true in Heq.
    run_equation; run_cases; cbn; intros v Hv;
      try discriminate; try congruence;
      injection Hv as <-; eauto.
Qed.

(** A run only appends to the log, and never prints. *)
Lemma events_after_run (w : World) :
  events (fst (run w)) = events w ++ emitted run w /\
  List.filter is_print (emitted run w) = [].
Proof.
  destruct w as [d0 evs0]. cbn [events].
  run_equation; run_cases; split; reflexivity.
Qed.

End OneCall.

Section Claims.
Context `{Collaborators}.
Variables (unet_model : UnetModel) (hf_model_name : string)
  (batch_size height width : Z) (precision : string) (max_length : Z)
  (hf_auth_token compile_to external_weights external_weight_path
     device target_triple max_alloc : option string)
  (upload_ir decomp_attn : bool).

(** C2. The class that a call declares has one [main] whose sample
    placeholder has the sizes
    [(batch_size, in_channels, height // 8, width // 8)], with
    [in_channels] read from the network's configuration; for a batch of 1
    at 512 by 512 these are [(1, in_channels, 64, 64)]. *)
Theorem sample_placeholder_shape (w : World) :
  map (fun cls => at_size (main_sample cls))
      (declared_classes
         (emitted (export_unet_model unet_model hf_model_name
                     batch_size height width precision max_length
                     hf_auth_token compile_to external_weights external_weight_path
                     device target_triple max_alloc upload_ir decomp_attn) w))
  = [[ batch_size; in_channels (config (unet unet_model));
       (height / 8)%Z; (width / 8)%Z ]]
  /\
  map (fun cls => at_size (main_sample cls))
      (declared_classes
         (emitted (export_unet_model unet_model hf_model_name
                     1 512 512 precision max_length
                     hf_auth_token compile_to external_weights external_weight_path
                     device target_triple max_alloc upload_ir decomp_attn) w))
  = [[ 1%Z; in_channels (config (unet unet_model)); 64%Z; 64%Z ]].
Proof. split; rewrite declared_class_of_run; reflexivity. Qed.

(** C9. The encoder hidden-state placeholder of the declared [main] has
    the sizes [(layers_per_block, max_length, cross_attention_dim)], the
    first and the last read from the network's configuration: its leading
    size is the layers-per-block count, whatever batch size is asked for. *)
Theorem encoder_hidden_states_placeholder_shape (w : World) (other_batch_size : Z) :
  map (fun cls => at_size (main_encoder_hidden_states cls))
      (declared_classes
         (emitted (export_unet_model unet_model hf_model_name
                     batch_size height width precision max_length
                     hf_auth_token compile_to external_weights external_weight_path
                     device target_triple max_alloc upload_ir decomp_attn) w))
  = [[ layers_per_block (config (unet unet_model)); max_length;
       cross_attention_dim (config (unet unet_model)) ]]
  /\
  map (fun cls => at_size (main_encoder_hidden_states cls))
      (declared_classes
         (emitted (export_unet_model unet_model hf_model_name
                     other_batch_size height width precision max_length
                     hf_auth_token compile_to external_weights external_weight_path
                     device target_triple max_alloc upload_ir decomp_attn) w))
  = [[ layers_per_block (config (unet unet_model)); max_length;
       cross_attention_dim (config (unet unet_model)) ]].
Proof. split; rewrite declared_class_of_run; reflexivity. Qed.

(** C4, at two calls in one process. The first call with [decomp_attn]
    traces with the module-level list extended by the two attention
    decompositions, and leaves the module-level list extended. A second
    such call then traces with the two attention decompositions twice,
    and a second call without [decomp_attn] still traces with them. *)
Theorem decomposition_policy_accumulates (w : World) :
  let call decomp_attn :=
    export_unet_model unet_model hf_model_name batch_size height width precision
      max_length hf_auth_token compile_to external_weights external_weight_path
      device target_triple max_alloc upload_ir decomp_attn in
  let after_first := fst (call true w) in
  map main_decompose_ops (declared_classes (emitted (call true) w))
    = [DEFAULT_DECOMPOSITIONS w ++ attention_decompositions] /\
  DEFAULT_DECOMPOSITIONS after_first
    = DEFAULT_DECOMPOSITIONS w ++ attention_decompositions /\
  map main_decompose_ops (declared_classes (emitted (call true) after_first))
    = [DEFAULT_DECOMPOSITIONS w ++ attention_decompositions ++ attention_decompositions] /\
  map main_decompose_ops (declared_classes (emitted (call false) after_first))
    = [DEFAULT_DECOMPOSITIONS w ++ attention_decompositions].
Proof.
  cbv zeta. rewrite !declared_class_of_run, !policy_after_run.
  cbn [map main_decompose_ops]. rewrite <- app_assoc, app_nil_r.
  repeat split; reflexivity.
Qed.

(** C6. With [external_weights] not set, the weights stage leaves the
    weight-name mapping empty, the run writes no weights file, and the
    declared class embeds the parameters of the model. *)
Theorem no_external_weights_no_file (w : World) :
  let run :=
    export_unet_model unet_model hf_model_name batch_size height width precision
      max_length hf_auth_token compile_to None external_weight_path
      device target_triple max_alloc upload_ir decomp_attn in
  let dtype := if (precision =? "fp16")%string then float16 else float32 in
  save_external_weights ∅ (to unet_model dtype) None external_weight_path w
    = (w, Ok ∅) /\
  List.filter is_save_weights (emitted run w) = [] /\
  map params (declared_classes (emitted run w))
    = [export_parameters (to unet_model dtype)].
Proof.
  cbv zeta. split; [reflexivity|]. split.
  - destruct w as [d0 evs0]. unfold emitted. rewrite export_unet_model_run.
    cbv zeta. run_cases; reflexivity.
  - rewrite declared_class_of_run. reflexivity.
Qed.

(** C10. The token reaches neither the model load nor anything the driver
    does: with any two tokens, constructing the model, exporting it and
    the whole command line behave alike. *)
Theorem hf_auth_token_unused (token1 token2 : option string) (args : Args) (w : World) :
  UnetModel_init hf_model_name token1 w = UnetModel_init hf_model_name token2 w /\
  export_unet_model unet_model hf_model_name batch_size height width precision
    max_length token1 compile_to external_weights external_weight_path
    device target_triple max_alloc upload_ir decomp_attn w
  = export_unet_model unet_model hf_model_name batch_size height width precision
      max_length token2 compile_to external_weights external_weight_path
      device target_triple max_alloc upload_ir decomp_attn w /\
  main (with_hf_auth_token args token1) w = main (with_hf_auth_token args token2) w.
Proof. repeat split; reflexivity. Qed.

(** What graph capture answered in a run is its answer on the class that
    the run declared. *)
Lemma capture_outcome_of_class (decomp : bool) (w : World) :
  let run :=
    export_unet_model unet_model hf_model_name batch_size height width precision
      max_length hf_auth_token compile_to external_weights external_weight_path
      device target_triple max_alloc upload_ir decomp in
  let import_to := if py_eq compile_to "linalg" then "INPUT" else "IMPORT" in
  capture_outcomes (emitted run w) =
    map (fun cls => get_mlir_module cls import_to) (declared_classes (emitted run w)).
Proof.
  destruct w as [d0 evs0]. cbv zeta.
  run_equation;
    match goal with
    | |- context [EvCapture ?c ?i (get_mlir_module ?c ?i)] =>
        set (cls := c); remember (get_mlir_module cls i) as captured eqn:Hc
    end;
    destruct captured; run_cases; cbn; rewrite Hc; reflexivity.
Qed.

(** C8, where the code departs from it. One configuration, with
    [decomp_attn] off, run before and after a call with [decomp_attn] on
    in the same process: the first run traces with the module-level list,
    the second with that list and the two attention decompositions, so the
    two runs hand different classes to graph capture; whenever capture
    tells these two policies apart, it answers the two runs with different
    module texts. *)
Theorem same_configuration_different_module (w : World) :
  let call decomp_attn :=
    export_unet_model unet_model hf_model_name batch_size height width precision
      max_length hf_auth_token compile_to external_weights external_weight_path
      device target_triple max_alloc upload_ir decomp_attn in
  let later := fst (call true w) in
  map main_decompose_ops (declared_classes (emitted (call false) w))
    = [DEFAULT_DECOMPOSITIONS w] /\
  map main_decompose_ops (declared_classes (emitted (call false) later))
    = [DEFAULT_DECOMPOSITIONS w ++ attention_decompositions] /\
  ((forall cls import_to,
      main_decompose_ops cls = DEFAULT_DECOMPOSITIONS w ->
      get_mlir_module
        (with_decompose_ops cls (DEFAULT_DECOMPOSITIONS w ++ attention_decompositions))
        import_to
      <> get_mlir_module cls import_to) ->
   capture_outcomes (emitted (call false) later)
     <> capture_outcomes (emitted (call false) w)).
Proof.
  cbv zeta. split; [|split].
  - rewrite declared_class_of_run. cbn [map main_decompose_ops].
    rewrite app_nil_r. reflexivity.
  - rewrite declared_class_of_run, policy_after_run. cbn [map main_decompose_ops].
    rewrite app_nil_r. reflexivity.
  - intros Hdiff.
    rewrite !capture_outcome_of_class, !declared_class_of_run, policy_after_run.
    cbn [map]. rewrite !app_nil_r. intros Heq. injection Heq as Heq.
    revert Heq.
    match goal with
    | |- get_mlir_module ?c2 ?i = get_mlir_module ?c1 ?i -> False =>
        change c2 with (with_decompose_ops c1 (main_decompose_ops c2))
    end.
    apply Hdiff. reflexivity.
Qed.


(** C3, where the code departs from it. With [--compile_to vmfb] the
    driver called by the command line returns [None], not the module
    text; the command line then fails with a [TypeError] when it writes
    the returned value, or earlier if a collaborator raised, and in no
    case prints the path of a saved file. *)
Theorem vmfb_run_returns_no_module (args : Args) (w : World) :
  args_compile_to args = Some "vmfb" ->
  let export m :=
    export_unet_model m
      (args_hf_model_name args) (args_batch_size args)
      (args_height args) (args_width args) (args_precision args)
      (args_max_length args) (args_hf_auth_token args)
      (args_compile_to args) (args_external_weights args)
      (args_external_weight_path args) (args_device args)
      (args_iree_target_triple args) (args_vulkan_max_allocation args)
      false true in
  (forall m w1 w2 v, export m w1 = (w2, Ok v) -> v = PyNone) /\
  (forall m w1 w2 v,
      UnetModel_init (args_hf_model_name args) (args_hf_auth_token args) w = (w1, Ok m) ->
      export m w1 = (w2, Ok v) ->
      snd (main args w) = Raise TypeError) /\
  snd (main args w) <> Ok tt /\
  List.filter is_print (emitted (main args) w) = [].
Proof.
  intros Hvmfb. cbv zeta.
  assert (Hnone : forall m w1 w2 v,
    export_unet_model m
      (args_hf_model_name args) (args_batch_size args)
      (args_height args) (args_width args) (args_precision args)
      (args_max_length args) (args_hf_auth_token args)
      (args_compile_to args) (args_external_weights args)
      (args_external_weight_path args) (args_device args)
      (args_iree_target_triple args) (args_vulkan_max_allocation args)
      false true w1 = (w2, Ok v) -> v = PyNone).
  { intros m [d1 evs1] w2 v. rewrite Hvmfb, export_unet_model_run. cbv zeta.
    change (py_eq (Some "vmfb") "vmfb") with true.
    run_cases; intros Hv; congruence. }
  split; [exact Hnone|].
  unfold emitted, main, bind.
  destruct (UnetModel_init _ _ w) as [w1 [m|e]] eqn:Hinit.
  2:{ split; [intros; discriminate|]. split; [discriminate|].
      revert Hinit. unfold UnetModel_init, bind, call, ret.
      destruct (from_pretrained _ _); intros [= <-]; cbn [fst events];
        rewrite drop_app_length; reflexivity. }
  assert (Hw1 : events w1 = events w ++ [EvFromPretrained (args_hf_model_name args) "unet"]).
  { revert Hinit. unfold UnetModel_init, bind, call, ret.
    destruct (from_pretrained _ _); intros [= <- _]; reflexivity. }
  match goal with
  | |- context [match ?run w1 with _ => _ end] =>
      pose proof (events_after_run _ _ _ _ _ _ _ _ _ _ _ _ _ _ _ _ w1 : 
                    events (fst (run w1)) = _ /\ _) as [Hev Hpr];
      destruct (run w1) as [w2 [v|e]] eqn:Hrun
  end.
  - apply Hnone in Hrun as Hv. subst v. cbn [fst] in Hev.
    unfold open_and_write, bind, emit, raise. cbn [fst snd events].
    split; [intros m' w1' w2' v' [= _ _] _; reflexivity|].
    split; [discriminate|].
    rewrite Hev, Hw1, <- !app_assoc, drop_app_length, !List.filter_app, Hpr.
    reflexivity.
  - cbn [fst snd] in *.
    split; [intros m' w1' w2' v' [= <- <-] Hr; congruence|].
    split; [discriminate|].
    rewrite Hev, Hw1, <- !app_assoc, drop_app_length, !List.filter_app, Hpr.
    reflexivity.
Qed.
End Claims.

(** ** The theorems at concrete runs *)

Lemma compile_step_iff_vmfb_witness :
  List.filter is_compile (emitted (stub_export (Some "torch") false) fresh_process) = [] /\
  List.filter is_compile (emitted (stub_export (Some "linalg") false) fresh_process) = [] /\
  exists module_str outcome,
    capture_outcomes (emitted (stub_export (Some "vmfb") false) fresh_process)
      = [Ok module_str] /\
    List.filter is_compile (emitted (stub_export (Some "vmfb") false) fresh_process)
      = [EvCompile module_str (Some "cpu") (Some EmptyString) (Some "4294967296")
           "CompVis_stable-diffusion-v1-4-unet" outcome].
Proof.
  split; [|split].
  - apply (proj1 (@compile_step_iff_vmfb stub_collaborators (mkUnetModel sd_unet)
      "CompVis/stable-diffusion-v1-4" 1 512 512 "fp16" 77 None (Some "torch")
      None (Some EmptyString) (Some "cpu") (Some EmptyString) (Some "4294967296")
      false true fresh_process)).
    discriminate.
  - apply (proj1 (@compile_step_iff_vmfb stub_collaborators (mkUnetModel sd_unet)
      "CompVis/stable-diffusion-v1-4" 1 512 512 "fp16" 77 None (Some "linalg")
      None (Some EmptyString) (Some "cpu") (Some EmptyString) (Some "4294967296")
      false true fresh_process)).
    discriminate.
  - apply (proj2 (@compile_step_iff_vmfb stub_collaborators (mkUnetModel sd_unet)
      "CompVis/stable-diffusion-v1-4" 1 512 512 "fp16" 77 None (Some "vmfb")
      None (Some EmptyString) (Some "cpu") (Some EmptyString) (Some "4294967296")
      false true fresh_process)); reflexivity.
Defined.

(** C7, as stated, fails: with [upload_ir] set and [compile_to] at
    [torch] the upload is made and succeeds, yet the run returns the module
    text, which is not the identifier of the uploaded blob. *)
Lemma blob_identifier_counterexample :
  let upload_ir := true in
  let run := stub_export (Some "torch") upload_ir in
  uploaded_blobs (emitted run fresh_process)
    = ["blob:CompVis-stable-diffusion-v1-4_unet/CompVis-stable-diffusion-v1-4_unet.mlir"] /\
  snd (run fresh_process) = Ok (PyStr "module @compiled_unet // IMPORT") /\
  ~ (returns_uploaded_blob (snd (run fresh_process)) (emitted run fresh_process) = true
     <-> upload_ir = true).
Proof.
  cbv zeta. split; [reflexivity|]. split; [reflexivity|].
  intros [_ Hback]. specialize (Hback eq_refl). vm_compute in Hback. discriminate.
Qed.

Lemma upload_and_returned_value_witness :
  List.filter is_upload (emitted (stub_export (Some "torch") false) fresh_process) = [] /\
  length (List.filter is_upload (emitted (stub_export (Some "torch") true) fresh_process)) = 1 /\
  (exists module_str,
     capture_outcomes (emitted (stub_export (Some "torch") true) fresh_process)
       = [Ok module_str] /\
     PyStr "module @compiled_unet // IMPORT" = PyStr module_str) /\
  (exists blob_name,
     uploaded_blobs (emitted (stub_export (Some "vmfb") true) fresh_process) = [blob_name] /\
     PyStr "blob:CompVis-stable-diffusion-v1-4_unet/CompVis-stable-diffusion-v1-4_unet.mlir"
       = PyStr blob_name).
Proof.
  pose proof (@upload_and_returned_value stub_collaborators (mkUnetModel sd_unet)
      "CompVis/stable-diffusion-v1-4" 1 512 512 "fp16" 77 None (Some "torch")
      None (Some EmptyString) (Some "cpu") (Some EmptyString) (Some "4294967296")
      false true fresh_process) as (Hoff & _ & _ & _).
  pose proof (@upload_and_returned_value stub_collaborators (mkUnetModel sd_unet)
      "CompVis/stable-diffusion-v1-4" 1 512 512 "fp16" 77 None (Some "torch")
      None (Some EmptyString) (Some "cpu") (Some EmptyString) (Some "4294967296")
      true true fresh_process) as (_ & Hon & Htext & _).
  pose proof (@upload_and_returned_value stub_collaborators (mkUnetModel sd_unet)
      "CompVis/stable-diffusion-v1-4" 1 512 512 "fp16" 77 None (Some "vmfb")
      None (Some EmptyString) (Some "cpu") (Some EmptyString) (Some "4294967296")
      true true fresh_process) as (_ & _ & _ & Hblob).
  split; [exact (Hoff eq_refl)|].
  split; [exact (Hon eq_refl "module @compiled_unet // IMPORT" eq_refl)|].
  split.
  - apply Htext; [discriminate | reflexivity].
  - apply Hblob; reflexivity.
Defined.

(** The capture of [policy_sensitive_collaborators] reads the policy as a
    set: the order and the repetitions of its operators do not matter. *)
Lemma policy_sensitive_reads_policy_as_set :
  @policy_as_set policy_sensitive_collaborators.
Proof.
  intros cls ops import_to Hmem.
  change (Ok (if existsb (String.eqb "torch.ops.aten._scaled_dot_product_flash_attention.default")
                         ops
              then "module @compiled_unet // attention decomposed"
              else "module @compiled_unet // attention kernel kept")
          = Ok (if existsb (String.eqb "torch.ops.aten._scaled_dot_product_flash_attention.default")
                           (main_decompose_ops cls)
                then "module @compiled_unet // attention decomposed"
                else "module @compiled_unet // attention kernel kept")).
  assert (Hex : existsb (String.eqb "torch.ops.aten._scaled_dot_product_flash_attention.default")
                        ops
                = existsb (String.eqb "torch.ops.aten._scaled_dot_product_flash_attention.default")
                          (main_decompose_ops cls)).
  { apply eq_true_iff_eq. rewrite !existsb_exists.
    split; intros (op & Hin & Hop); exists op; (split; [apply Hmem, Hin | exact Hop]). }
  rewrite Hex. reflexivity.
Qed.

(** The two module texts of one configuration, before and after a call
    with [decomp_attn] on. *)
Example same_configuration_two_texts :
  let call decomp_attn :=
    @export_unet_model policy_sensitive_collaborators (mkUnetModel sd_unet)
      "CompVis/stable-diffusion-v1-4" 1 512 512 "fp16" 77 None (Some "torch")
      None (Some EmptyString) (Some "cpu") (Some EmptyString) (Some "4294967296")
      false decomp_attn in
  snd (call false fresh_process)
    = Ok (PyStr "module @compiled_unet // attention kernel kept") /\
  snd (call false (fst (call true fresh_process)))
    = Ok (PyStr "module @compiled_unet // attention decomposed").
Proof. split; reflexivity. Qed.

Lemma same_configuration_different_module_witness :
  let call decomp_attn :=
    @export_unet_model policy_sensitive_collaborators (mkUnetModel sd_unet)
      "CompVis/stable-diffusion-v1-4" 1 512 512 "fp16" 77 None (Some "torch")
      None (Some EmptyString) (Some "cpu") (Some EmptyString) (Some "4294967296")
      false decomp_attn in
  capture_outcomes (emitted (call false) (fst (call true fresh_process)))
    <> capture_outcomes (emitted (call false) fresh_process).
Proof.
  refine (proj2 (proj2 (@same_configuration_different_module
      policy_sensitive_collaborators (mkUnetModel sd_unet)
      "CompVis/stable-diffusion-v1-4" 1 512 512 "fp16" 77 None (Some "torch")
      None (Some EmptyString) (Some "cpu") (Some EmptyString) (Some "4294967296")
      false fresh_process)) _).
  intros cls import_to Hpolicy. cbn. rewrite Hpolicy. vm_compute. discriminate.
Defined.


Lemma vmfb_run_returns_no_module_witness :
  let args := with_compile_to parser_defaults (Some "vmfb") in
  snd (@main stub_collaborators args fresh_process) = Raise TypeError /\
  snd (@main stub_collaborators args fresh_process) <> Ok tt /\
  List.filter is_print (emitted (@main stub_collaborators args) fresh_process) = [].
Proof.
  cbv zeta.
  pose proof (@vmfb_run_returns_no_module stub_collaborators
                (with_compile_to parser_defaults (Some "vmfb")) fresh_process eq_refl)
    as (_ & Htype & Hnot & Hprint).
  split; [|split; [exact Hnot | exact Hprint]].
  set (w1 := fst (@UnetModel_init stub_collaborators
                    "CompVis/stable-diffusion-v1-4" None fresh_process)).
  set (w2 := fst (stub_export (Some "vmfb") false w1)).
  apply (Htype (mkUnetModel sd_unet) w1 w2 PyNone); vm_compute; reflexivity.
Defined.

(** * Further properties *)

(** ** The model wrapper at its edges *)

Section WrapperEdges.
Context {E : Type} `{ElemOps E} `{UNetForward E}.

(** X1. An exception of the network is the exception of [forward]: nothing
    is caught, and the network has been called once. *)
Theorem forward_propagates_network_error
    (sample timestep ehs g : Tensor E) (b : nat) (r : list nat) (e : exn)
    (log : list (UnetCall E)) :
  let samples := mkTensor ((b + b) :: r) (data sample ++ data sample) in
  shape sample = b :: r ->
  unet_forward samples timestep ehs = Raise e ->
  forward sample timestep ehs g log = (log ++ [mkCall samples timestep ehs], Raise e).
Proof.
  intros samples Hs Hnet. unfold forward, bind, lift, call_unet.
  rewrite (torch_cat_twice sample b r Hs). fold samples. rewrite Hnet. reflexivity.
Qed.

(** X2. A sample without a batch dimension cannot be concatenated:
    [forward] raises before it reaches the network. *)
Theorem forward_needs_batch_dimension
    (sample timestep ehs g : Tensor E) (log : list (UnetCall E)) :
  shape sample = [] ->
  forward sample timestep ehs g log = (log, Raise RuntimeError).
Proof.
  intros Hs. unfold forward, bind, lift, torch_cat. cbn [replicate].
  rewrite Hs. reflexivity.
Qed.

(** The run of [forward] on a network answer with the doubled batch. *)
Lemma forward_on_even_answer
    (sample timestep ehs g out : Tensor E) (x : E) (b : nat) (r r' : list nat)
    (log : list (UnetCall E)) :
  shape sample = b :: r ->
  data g = [x] -> shape g = [] \/ shape g = [1] ->
  unet_forward (mkTensor ((b + b) :: r) (data sample ++ data sample)) timestep ehs = Ok out ->
  shape out = (b + b) :: r' -> wf out ->
  exists res,
    forward sample timestep ehs g log =
      (log ++ [mkCall (mkTensor ((b + b) :: r) (data sample ++ data sample)) timestep ehs],
       Ok res) /\
    shape res = b :: r' /\
    data res = zip_with (fun u t => eadd u (emul x (esub t u)))
                 (take (b * numel r') (data out)) (drop (b * numel r') (data out)).
Proof.
  intros Hs Hx Hg Hnet Hout Hwf.
  assert (Hlen : length (data out) = (b + b) * numel r')
    by (unfold wf in Hwf; rewrite Hout in Hwf; exact Hwf).
  set (uncond := mkTensor (b :: r') (take (b * numel r') (data out))).
  set (text := mkTensor (b :: r') (drop (b * numel r') (data out))).
  assert (Hlu : length (data uncond) = b * numel r')
    by (unfold uncond; cbn [data]; rewrite length_take; nia).
  assert (Hlt : length (data text) = b * numel r')
    by (unfold text; cbn [data]; rewrite length_drop; nia).
  assert (Hu : wf uncond) by exact Hlu.
  assert (Ht : wf text) by exact Hlt.
  exists (mkTensor (b :: r')
            (zip_with eadd (data uncond)
               (map (emul x) (zip_with esub (data text) (data uncond))))).
  split; [|split; [reflexivity|]].
  - unfold forward, bind, lift, call_unet, ret.
    rewrite (torch_cat_twice sample b r Hs), Hnet, (torch_chunk_even out b r' Hout Hwf).
    cbn [unpack2]. fold uncond text.
    rewrite (elementwise_same_shape esub text uncond eq_refl Ht Hu).
    rewrite (elementwise_scalar emul g _ x Hx Hg); cycle 1.
    { discriminate. }
    { unfold wf. cbn [data shape]. change (shape text) with (b :: r').
      rewrite numel_cons, length_zip_with, Hlu, Hlt. lia. }
    rewrite elementwise_same_shape; cycle 1.
    { reflexivity. }
    { exact Hu. }
    { unfold wf. cbn [data shape]. change (shape text) with (b :: r').
      rewrite numel_cons, length_map, length_zip_with, Hlu, Hlt. lia. }
    reflexivity.
  - cbn [data]. apply guidance_pointwise.
Qed.

(** X3. On a well-formed network answer with the doubled batch, the tensor
    that [forward] returns is well formed: it holds as many elements as one
    half of the answer, which is what its shape announces. *)
Theorem forward_result_well_formed
    (sample timestep ehs g out : Tensor E) (x : E) (b : nat) (r r' : list nat)
    (log : list (UnetCall E)) :
  shape sample = b :: r ->
  data g = [x] -> shape g = [] \/ shape g = [1] ->
  unet_forward (mkTensor ((b + b) :: r) (data sample ++ data sample)) timestep ehs = Ok out ->
  shape out = (b + b) :: r' -> wf out ->
  exists res,
    snd (forward sample timestep ehs g log) = Ok res /\
    wf res /\
    length (data res) + length (data res) = length (data out).
Proof.
  intros Hs Hx Hg Hnet Hout Hwf.
  destruct (forward_on_even_answer sample timestep ehs g out x b r r' log
              Hs Hx Hg Hnet Hout Hwf) as (res & Hrun & Hshape & Hdata).
  assert (Hlen : length (data out) = (b + b) * numel r')
    by (unfold wf in Hwf; rewrite Hout in Hwf; exact Hwf).
  assert (Hres : length (data res) = b * numel r')
    by (rewrite Hdata, length_zip_with, length_take, length_drop; nia).
  exists res. split; [rewrite Hrun; reflexivity|]. split.
  - unfold wf. rewrite Hshape, numel_cons. exact Hres.
  - rewrite Hres, Hlen. lia.
Qed.

(** X4. A network answer with a single row gives one chunk only: the
    unpacking into two raises [ValueError], after the one call. *)
Theorem forward_single_row_answer
    (sample timestep ehs g out : Tensor E) (b : nat) (r r' : list nat)
    (log : list (UnetCall E)) :
  let samples := mkTensor ((b + b) :: r) (data sample ++ data sample) in
  shape sample = b :: r ->
  unet_forward samples timestep ehs = Ok out ->
  shape out = 1 :: r' ->
  forward sample timestep ehs g log = (log ++ [mkCall samples timestep ehs], Raise ValueError).
Proof.
  intros samples Hs Hnet Hout. unfold forward, bind, lift, call_unet.
  rewrite (torch_cat_twice sample b r Hs). fold samples. rewrite Hnet.
  unfold torch_chunk. rewrite Hout. reflexivity.
Qed.
End WrapperEdges.

Lemma forward_propagates_network_error_witness :
  @forward Z Z_ops failing_unet
    (mkTensor [1; 2] [10; 20]%Z) (mkTensor [1] [5%Z]) (mkTensor [] [])
    (mkTensor [1] [7%Z]) [] =
    ([mkCall (mkTensor [2; 2] [10; 20; 10; 20]%Z) (mkTensor [1] [5%Z]) (mkTensor [] [])],
     Raise (External "unet")).
Proof.
  exact (@forward_propagates_network_error Z Z_ops failing_unet
           (mkTensor [1; 2] [10; 20]%Z) (mkTensor [1] [5%Z]) (mkTensor [] [])
           (mkTensor [1] [7%Z]) 1 [2] (External "unet") [] eq_refl eq_refl).
Defined.

Lemma forward_needs_batch_dimension_witness :
  @forward Z Z_ops position_unet
    (mkTensor [] [10%Z]) (mkTensor [1] [5%Z]) (mkTensor [] []) (mkTensor [1] [7%Z]) []
  = ([], Raise RuntimeError).
Proof.
  exact (@forward_needs_batch_dimension Z Z_ops position_unet
           (mkTensor [] [10%Z]) (mkTensor [1] [5%Z]) (mkTensor [] [])
           (mkTensor [1] [7%Z]) [] eq_refl).
Defined.

Lemma forward_result_well_formed_witness :
  exists res,
    snd (@forward Z Z_ops position_unet
           (mkTensor [1; 2] [10; 20]%Z) (mkTensor [1] [5%Z]) (mkTensor [] [])
           (mkTensor [1] [7%Z]) []) = Ok res /\
    wf res /\
    length (data res) + length (data res) = 4.
Proof.
  exact (@forward_result_well_formed Z Z_ops position_unet
           (mkTensor [1; 2] [10; 20]%Z) (mkTensor [1] [5%Z]) (mkTensor [] [])
           (mkTensor [1] [7%Z]) (mkTensor [2; 2] [10; 21; 12; 23]%Z) 7%Z 1 [2] [2] []
           eq_refl eq_refl (or_intror eq_refl) eq_refl eq_refl eq_refl).
Defined.

Lemma forward_single_row_answer_witness :
  @forward Z Z_ops one_row_unet
    (mkTensor [1; 2] [10; 20]%Z) (mkTensor [1] [5%Z]) (mkTensor [] [])
    (mkTensor [1] [7%Z]) [] =
    ([mkCall (mkTensor [2; 2] [10; 20; 10; 20]%Z) (mkTensor [1] [5%Z]) (mkTensor [] [])],
     Raise ValueError).
Proof.
  exact (@forward_single_row_answer Z Z_ops one_row_unet
           (mkTensor [1; 2] [10; 20]%Z) (mkTensor [1] [5%Z]) (mkTensor [] [])
           (mkTensor [1] [7%Z]) (mkTensor [1; 2] [10; 20]%Z) 1 [2] [2] []
           eq_refl eq_refl eq_refl).
Defined.

Lemma forward_calls_unet_once_witness :
  fst (@forward Z Z_ops failing_unet
         (mkTensor [1; 2] [10; 20]%Z) (mkTensor [1] [5%Z]) (mkTensor [] [])
         (mkTensor [1] [7%Z]) []) =
    [mkCall (mkTensor [2; 2] [10; 20; 10; 20]%Z) (mkTensor [1] [5%Z]) (mkTensor [] [])].
Proof.
  exact (@forward_calls_unet_once Z Z_ops failing_unet
           (mkTensor [1; 2] [10; 20]%Z) (mkTensor [1] [5%Z]) (mkTensor [] [])
           (mkTensor [1] [7%Z]) 1 [2] [] eq_refl).
Defined.

(** ** The export driver: failures, artifacts and state *)

Section DriverEdges.
Context `{Collaborators}.
Variables (unet_model : UnetModel) (hf_model_name : string)
  (batch_size height width : Z) (precision : string) (max_length : Z)
  (hf_auth_token compile_to external_weights external_weight_path
     device target_triple max_alloc : option string)
  (upload_ir decomp_attn : bool).

Local Abbreviation run :=
  (export_unet_model unet_model hf_model_name batch_size height width precision
     max_length hf_auth_token compile_to external_weights external_weight_path
     device target_triple max_alloc upload_ir decomp_attn).

Local Abbreviation mlir := (create_safe_name hf_model_name "-unet" +:+ ".mlir").

Local Abbreviation model_name_upload := (replace "/" "-" hf_model_name +:+ "_unet").

(** X6. The driver recovers from nothing: when a collaborator call (graph
    capture, upload or backend compile) raises [e], that call is the last
    step of the run and the run raises [e]; a run that returns saw no
    collaborator raise. *)
Theorem collaborator_failure_ends_run (w : World) :
  (forall ev e, In ev (emitted run w) -> raised_by ev = Some e ->
     snd (run w) = Raise e /\ last (emitted run w) = Some ev) /\
  (forall v, snd (run w) = Ok v -> omap raised_by (emitted run w) = []).
Proof.
  destruct w as [d0 evs0]. split.
  - intros ev e. run_equation; run_cases; cbn; intros Hin Hr;
      repeat (destruct Hin as [<- | Hin]; [cbn in Hr; try discriminate Hr |]);
      try contradiction;
      injection Hr as <-; split; reflexivity.
  - intros v. run_equation; run_cases; cbn; intros Hv;
      try discriminate; reflexivity.
Qed.


(** X7. When graph capture raises, the run raises the same exception and
    the capture was its last step: no text file is opened, nothing is
    uploaded and nothing is compiled. *)
Theorem capture_failure_aborts (w : World) (e : exn) :
  capture_outcomes (emitted run w) = [Raise e] ->
  snd (run w) = Raise e /\
  (exists ev, last (emitted run w) = Some ev /\ raised_by ev = Some e) /\
  List.filter is_file_event (emitted run w) = [] /\
  List.filter is_upload (emitted run w) = [] /\
  List.filter is_compile (emitted run w) = [].
Proof.
  destruct w as [d0 evs0].
  run_equation; run_cases; cbn; intros He; try discriminate;
    injection He as <-; repeat split; try reflexivity;
    eexists; split; reflexivity.
Qed.

(** X8. When the upload raises, the run raises the same exception and the
    backend compile step is not reached, whatever [compile_to] is; the
    module text has been written to [<safe-name>.mlir] by then. *)
Theorem upload_failure_aborts (w : World) (e : exn) :
  upload_outcomes (emitted run w) = [Raise e] ->
  snd (run w) = Raise e /\
  List.filter is_compile (emitted run w) = [] /\
  exists module_str,
    capture_outcomes (emitted run w) = [Ok module_str] /\
    List.filter is_file_event (emitted run w) = [EvOpen mlir; EvWrite mlir module_str].
Proof.
  destruct w as [d0 evs0].
  run_equation; run_cases; cbn; intros He; try discriminate;
    injection He as <-; repeat split; eauto.
Qed.


(** X11. The four placeholders of the declared [main] have the element
    type that the model was cast to, which is [float16] exactly for the
    precision [fp16] and [float32] for every other precision string; the
    timestep and the guidance scale are one-element tensors. *)
Theorem placeholders_share_model_dtype (w : World) :
  let dtype := if (precision =? "fp16")%string then float16 else float32 in
  map (fun cls =>
         ( [ at_dtype (main_sample cls); at_dtype (main_timestep cls);
             at_dtype (main_encoder_hidden_states cls);
             at_dtype (main_guidance_scale cls) ],
           unet_dtype (unet (main_traces cls)),
           at_size (main_timestep cls), at_size (main_guidance_scale cls) ))
      (declared_classes (emitted run w))
  = [ ([dtype; dtype; dtype; dtype], dtype, [1%Z], [1%Z]) ] /\
  (dtype = float16 <-> precision = "fp16").
Proof.
  cbv zeta. split.
  - rewrite declared_class_of_run. reflexivity.
  - destruct (precision =? "fp16")%string eqn:Hp.
    + apply String.eqb_eq in Hp. tauto.
    + apply String.eqb_neq in Hp. split; [discriminate | contradiction].
Qed.

(** X12. Graph capture is asked once, for the import stage [INPUT] when
    [compile_to] is [linalg] and for [IMPORT] otherwise. *)
Theorem import_stage_by_compile_to (w : World) :
  (compile_to = Some "linalg" -> capture_stages (emitted run w) = ["INPUT"]) /\
  (compile_to <> Some "linalg" -> capture_stages (emitted run w) = ["IMPORT"]).
Proof.
  destruct w as [d0 evs0]. split.
  - intros Heq. apply py_eq_true in Heq.
    run_equation; rewrite Heq; run_cases; reflexivity.
  - intros Hne. apply py_eq_false in Hne.
    run_equation; rewrite Hne; run_cases; reflexivity.
Qed.

(** X16. Every run, whether it returns or raises, leaves the module-level
    list extended by what it appended: after [n] runs in a row the list is
    the initial one followed by [n] copies of the two attention
    decompositions when [decomp_attn] is set, and the initial one when it
    is not. *)
Theorem policy_after_n_runs (n : nat) (w : World) :
  DEFAULT_DECOMPOSITIONS (after_runs n run w) =
    DEFAULT_DECOMPOSITIONS w ++
    concat (replicate n (if decomp_attn then attention_decompositions else [])) /\
  length (DEFAULT_DECOMPOSITIONS (after_runs n run w)) =
    length (DEFAULT_DECOMPOSITIONS w) + (if decomp_attn then 2 * n else 0).
Proof.
  assert (Hlist : forall k w0,
    DEFAULT_DECOMPOSITIONS (after_runs k run w0) =
      DEFAULT_DECOMPOSITIONS w0 ++
      concat (replicate k (if decomp_attn then attention_decompositions else []))).
  { induction k as [|k IH]; intros w0; cbn [after_runs replicate concat].
    - rewrite app_nil_r. reflexivity.
    - rewrite IH, policy_after_run, <- app_assoc. reflexivity. }
  split; [apply Hlist|].
  rewrite Hlist, length_app. f_equal.
  destruct decomp_attn.
  - induction n as [|k IH]; cbn [replicate concat]; [reflexivity|].
    rewrite length_app, IH. cbn. lia.
  - induction n as [|k IH]; cbn [replicate concat app]; [reflexivity | exact IH].
Qed.
End DriverEdges.

(** X10. The upload name component built from the model name holds no
    slash, so the blob name [<n>/<n>.mlir] has one directory level; it is
    as long as the model name and the five characters of [_unet]. *)
Theorem model_name_upload_has_no_slash (hf_model_name : string) :
  let model_name_upload := replace "/" "-" hf_model_name +:+ "_unet" in
  ~ In "/"%char (list_ascii_of_string model_name_upload) /\
  String.length model_name_upload = String.length hf_model_name + 5.
Proof.
  cbv zeta. induction hf_model_name as [|c s [IHin IHlen]].
  - split; [|reflexivity].
    cbn. intros Hin. repeat destruct Hin as [Hin|Hin]; try discriminate; exact Hin.
  - split.
    + change (~ In "/"%char
                ((if Ascii.eqb c "/" then "-"%char else c)
                 :: list_ascii_of_string (replace "/" "-" s +:+ "_unet"))).
      intros [Hc | Hin]; [|exact (IHin Hin)].
      destruct (Ascii.eqb c "/") eqn:Hcmp; [discriminate|].
      apply Ascii.eqb_neq in Hcmp. congruence.
    + change (S (String.length (replace "/" "-" s +:+ "_unet"))
              = S (String.length s) + 5).
      rewrite IHlen. reflexivity.
Qed.

(** ** The command line *)

(** Splits on what the weights stage logged, in a goal that holds the
    stage-by-stage form of a run. *)
Ltac split_saved :=
  match goal with
  | |- context [?s ++ [EvCapture _ _ _] ++ _] =>
      let Hs := fresh "Hsaved" in
      let saved := fresh "saved" in
      pose proof (weights_stage_events _ _ _ : s = [] \/ _) as Hs;
      set (saved := s) in *;
      destruct Hs as [Hs | (? & ? & Hs)]; rewrite Hs; clear Hs saved
  end.

(** Unfolds the command line down to the run of the driver, rewrites that
    run with its stage-by-stage form and splits on its cases. *)
Ltac main_cases :=
  unfold emitted, main, UnetModel_init, open_and_write, print2, bind, call, emit,
    raise, ret;
  cbn [fst snd events DEFAULT_DECOMPOSITIONS];
  repeat match goal with
    | |- context [match from_pretrained ?n ?s with _ => _ end] =>
        destruct (from_pretrained n s) eqn:?
    end;
  cbn [fst snd events DEFAULT_DECOMPOSITIONS];
  try (rewrite export_unet_model_run; cbv zeta; split_saved; run_cases);
  rewrite <- ?app_assoc; rewrite ?drop_app_length.

Section CommandLineEdges.
Context `{Collaborators}.

(** X15. When the pretrained network cannot be loaded, the command line
    raises the loader's exception at once: the load, from the subfolder
    [unet], is its only step, and the module-level list is untouched. *)
Theorem main_load_failure (args : Args) (w : World) (e : exn) :
  from_pretrained (args_hf_model_name args) "unet" = Raise e ->
  main args w =
    (mkWorld (DEFAULT_DECOMPOSITIONS w)
             (events w ++ [EvFromPretrained (args_hf_model_name args) "unet"]),
     Raise e).
Proof.
  intros Hload. unfold main, UnetModel_init, bind, call. rewrite Hload. reflexivity.
Qed.

(** X13. A run of the command line that succeeds was not asked for the
    stage [vmfb], and did exactly this, in order: it loaded the network,
    let the weights stage do its work, captured the module, opened
    [<safe-name>.mlir], wrote the captured module text to it and printed
    [Saved to <safe-name>.mlir]. *)
Theorem main_saves_module (args : Args) (w : World) :
  let path := create_safe_name (args_hf_model_name args) "-unet" +:+ ".mlir" in
  snd (main args w) = Ok tt ->
  args_compile_to args <> Some "vmfb" /\
  exists saved cls stage module_str,
    emitted (main args) w =
      [EvFromPretrained (args_hf_model_name args) "unet"] ++
      saved ++
      [ EvCapture cls stage (Ok module_str);
        EvOpen path; EvWrite path module_str;
        EvPrint ("Saved to " +:+ path) ] /\
    forallb is_save_weights saved = true.
Proof.
  destruct w as [d0 evs0]. cbv zeta.
  main_cases; cbn; intros Hok; try discriminate;
    (split;
     [ match goal with
       | Hq : py_eq _ "vmfb" = false |- _ => apply py_eq_false in Hq; exact Hq
       end
     | (exists [] + eexists [_]); do 3 eexists; split; reflexivity ]).
Qed.


(** X14. The command line never uploads, and whenever it reaches graph
    capture it traces with the module-level list extended by the two
    attention decompositions: it has no flag for either switch. *)
Theorem main_never_uploads (args : Args) (w : World) :
  List.filter is_upload (emitted (main args) w) = [] /\
  Forall (fun cls =>
            main_decompose_ops cls =
              DEFAULT_DECOMPOSITIONS w ++ attention_decompositions)
         (declared_classes (emitted (main args) w)).
Proof.
  destruct w as [d0 evs0].
  main_cases; cbn; split; try reflexivity; repeat constructor.
Qed.

(** X17. With [--compile_to vmfb], a loaded network and no collaborator
    raising, the command line leaves [<safe-name>.mlir] opened for writing,
    hence created or emptied, with nothing written to it. *)
Theorem main_vmfb_leaves_empty_file (args : Args) (w : World)
    (net : UNet2DConditionModel) :
  let path := create_safe_name (args_hf_model_name args) "-unet" +:+ ".mlir" in
  args_compile_to args = Some "vmfb" ->
  from_pretrained (args_hf_model_name args) "unet" = Ok net ->
  omap raised_by (emitted (main args) w) = [] ->
  List.filter is_file_event (emitted (main args) w) = [EvOpen path] /\
  last (emitted (main args) w) = Some (EvOpen path).
Proof.
  destruct w as [d0 evs0]. intros path Heq Hload. apply py_eq_true in Heq. subst path.
  main_cases; cbn; intros Hok; try discriminate; try congruence;
    split; reflexivity.
Qed.
End CommandLineEdges.

(** ** The further properties at concrete runs *)

Lemma collaborator_failure_ends_run_witness :
  let run := fixed_export (Ok "module") (Ok "blob") (Raise (External "compiler"))
               (Some "vmfb") true in
  (snd (run fresh_process) = Raise (External "compiler") /\
   last (emitted run fresh_process) =
     Some (EvCompile "module" (Some "cpu") (Some EmptyString) (Some "4294967296")
             "CompVis_stable-diffusion-v1-4-unet" (Raise (External "compiler")))) /\
  omap raised_by (emitted (stub_export (Some "torch") true) fresh_process) = [].
Proof.
  cbv zeta. split.
  - apply (proj1 (@collaborator_failure_ends_run
      (fixed_collaborators (Ok sd_unet) (Ok "module") (Ok "blob")
         (Raise (External "compiler")))
      (mkUnetModel sd_unet)
      "CompVis/stable-diffusion-v1-4" 1 512 512 "fp16" 77 None (Some "vmfb")
      None (Some EmptyString) (Some "cpu") (Some EmptyString) (Some "4294967296")
      true true fresh_process) _ (External "compiler")).
    + vm_compute. do 4 right. left. reflexivity.
    + reflexivity.
  - apply (proj2 (@collaborator_failure_ends_run stub_collaborators
      (mkUnetModel sd_unet)
      "CompVis/stable-diffusion-v1-4" 1 512 512 "fp16" 77 None (Some "torch")
      None (Some EmptyString) (Some "cpu") (Some EmptyString) (Some "4294967296")
      true true fresh_process) (PyStr "module @compiled_unet // IMPORT") eq_refl).
Defined.


Lemma capture_failure_aborts_witness :
  let run := fixed_export (Raise (External "capture")) (Ok "blob") (Ok tt)
               (Some "vmfb") true in
  snd (run fresh_process) = Raise (External "capture") /\
  List.filter is_compile (emitted run fresh_process) = [].
Proof.
  cbv zeta.
  pose proof (@capture_failure_aborts
      (fixed_collaborators (Ok sd_unet) (Raise (External "capture")) (Ok "blob") (Ok tt))
      (mkUnetModel sd_unet)
      "CompVis/stable-diffusion-v1-4" 1 512 512 "fp16" 77 None (Some "vmfb")
      None (Some EmptyString) (Some "cpu") (Some EmptyString) (Some "4294967296")
      true true fresh_process (External "capture") eq_refl)
    as (Hraise & _ & _ & _ & Hcompile).
  split; [exact Hraise | exact Hcompile].
Defined.

Lemma upload_failure_aborts_witness :
  let run := fixed_export (Ok "module") (Raise (External "upload")) (Ok tt)
               (Some "vmfb") true in
  snd (run fresh_process) = Raise (External "upload") /\
  List.filter is_compile (emitted run fresh_process) = [].
Proof.
  cbv zeta.
  pose proof (@upload_failure_aborts
      (fixed_collaborators (Ok sd_unet) (Ok "module") (Raise (External "upload")) (Ok tt))
      (mkUnetModel sd_unet)
      "CompVis/stable-diffusion-v1-4" 1 512 512 "fp16" 77 None (Some "vmfb")
      None (Some EmptyString) (Some "cpu") (Some EmptyString) (Some "4294967296")
      true true fresh_process (External "upload") eq_refl)
    as (Hraise & Hcompile & _).
  split; [exact Hraise | exact Hcompile].
Defined.


Lemma import_stage_by_compile_to_witness :
  capture_stages (emitted (stub_export (Some "linalg") false) fresh_process) = ["INPUT"] /\
  capture_stages (emitted (stub_export (Some "vmfb") false) fresh_process) = ["IMPORT"].
Proof.
  split.
  - apply (proj1 (@import_stage_by_compile_to stub_collaborators (mkUnetModel sd_unet)
      "CompVis/stable-diffusion-v1-4" 1 512 512 "fp16" 77 None (Some "linalg")
      None (Some EmptyString) (Some "cpu") (Some EmptyString) (Some "4294967296")
      false true fresh_process)).
    reflexivity.
  - apply (proj2 (@import_stage_by_compile_to stub_collaborators (mkUnetModel sd_unet)
      "CompVis/stable-diffusion-v1-4" 1 512 512 "fp16" 77 None (Some "vmfb")
      None (Some EmptyString) (Some "cpu") (Some EmptyString) (Some "4294967296")
      false true fresh_process)).
    discriminate.
Defined.

Lemma main_load_failure_witness :
  @main (fixed_collaborators (Raise (External "hub")) (Ok "module") (Ok "blob") (Ok tt))
        parser_defaults fresh_process =
    (mkWorld ["torch.ops.aten.addmm"]
             [EvFromPretrained "CompVis/stable-diffusion-v1-4" "unet"],
     Raise (External "hub")).
Proof.
  exact (@main_load_failure
           (fixed_collaborators (Raise (External "hub")) (Ok "module") (Ok "blob") (Ok tt))
           parser_defaults fresh_process (External "hub") eq_refl).
Defined.

Lemma main_saves_module_witness :
  parser_defaults.(args_compile_to) <> Some "vmfb" /\
  exists saved cls stage module_str,
    emitted (@main stub_collaborators parser_defaults) fresh_process =
      [EvFromPretrained "CompVis/stable-diffusion-v1-4" "unet"] ++
      saved ++
      [ EvCapture cls stage (Ok module_str);
        EvOpen "CompVis_stable-diffusion-v1-4-unet.mlir";
        EvWrite "CompVis_stable-diffusion-v1-4-unet.mlir" module_str;
        EvPrint "Saved to CompVis_stable-diffusion-v1-4-unet.mlir" ] /\
    forallb is_save_weights saved = true.
Proof.
  exact (@main_saves_module stub_collaborators parser_defaults fresh_process eq_refl).
Defined.


Lemma main_vmfb_leaves_empty_file_witness :
  let args := with_compile_to parser_defaults (Some "vmfb") in
  List.filter is_file_event (emitted (@main stub_collaborators args) fresh_process) =
    [EvOpen "CompVis_stable-diffusion-v1-4-unet.mlir"] /\
  last (emitted (@main stub_collaborators args) fresh_process) =
    Some (EvOpen "CompVis_stable-diffusion-v1-4-unet.mlir").
Proof.
  exact (@main_vmfb_leaves_empty_file stub_collaborators
           (with_compile_to parser_defaults (Some "vmfb")) fresh_process sd_unet
           eq_refl eq_refl eq_refl).
Defined.
